(** * yt2t: the orchestration logic of [src/yt2t/main.py]

    The program is a linear pipeline of calls into external libraries
    (pytube, moviepy, pydub, wave, whisper, youtube_transcript_api).  The
    embedding keeps the control flow, the string manipulation and the
    exception handling of the Python source, and takes the libraries as an
    environment of oracles.  The progress bars ([tqdm], and
    [on_progress_callback] that feeds one) only display and are left out. *)

From Stdlib Require Import Ascii String Bool Arith Lia List.
From stdpp Require Import base strings gmap sets list.


(** ** Python [str] primitives used by the source *)

Module PyStr.

Definition newline : ascii := "010"%char.

(** [s.startswith(p)] *)
Fixpoint startswith (s p : string) {struct p} : bool :=
  match p with
  | EmptyString => true
  | String c p' =>
      match s with
      | EmptyString => false
      | String d s' => Ascii.eqb c d && startswith s' p'
      end
  end.

(** [s[n:]] *)
Fixpoint drop (n : nat) (s : string) : string :=
  match n with
  | 0 => s
  | S n' => match s with EmptyString => EmptyString | String _ s' => drop n' s' end
  end.

(** [s.endswith(p)]: the last [len(p)] characters of [s] are [p]. *)
Definition endswith (s p : string) : bool :=
  (String.length p <=? String.length s)
  && String.eqb (drop (String.length s - String.length p) s) p.

(** [s.replace(old, new)] for a non-empty [old]: every non-overlapping
    occurrence of [old], scanning from the left, becomes [new].  [skip]
    counts the characters of the occurrence just replaced that are still
    to be passed over. *)
Fixpoint replace_from (old new : string) (skip : nat) (s : string) : string :=
  match s with
  | EmptyString => EmptyString
  | String c s' =>
      match skip with
      | S k => replace_from old new k s'
      | 0 =>
          if startswith s old
          then new +:+ replace_from old new (String.length old - 1) s'
          else String c (replace_from old new 0 s')
      end
  end.

(** With an empty [old] Python inserts [new] before every character and
    at the end. *)
Fixpoint intersperse (new s : string) : string :=
  match s with
  | EmptyString => new
  | String c s' => new +:+ String c (intersperse new s')
  end.

Definition replace (s old new : string) : string :=
  match old with
  | EmptyString => intersperse new s
  | _ => replace_from old new 0 s
  end.

(** [sep.join(l)] *)
Fixpoint join (sep : string) (l : list string) : string :=
  match l with
  | [] => EmptyString
  | [x] => x
  | x :: rest => x +:+ sep +:+ join sep rest
  end.

End PyStr.

(** ** A backtracking matcher for the fragment of Python's [re] the source uses *)

Module Re.

Inductive regex : Type :=
| Eps                      (* the empty pattern *)
| Bol                      (* ^ : start of the string *)
| Eol                      (* $ : end of the string, or just before a final newline *)
| Chr (c : ascii)          (* a literal character, escaped or not *)
| Dot                      (* . : any character except a newline *)
| Seq (r1 r2 : regex)
| Alt (r1 r2 : regex)      (* r1|r2 *)
| Opt (r : regex)          (* r? *)
| Plus (r : regex).        (* r+ *)

(** A run of literal characters. *)
Fixpoint lit (s : string) : regex :=
  match s with
  | EmptyString => Eps
  | String c s' => Seq (Chr c) (lit s')
  end.

(** [matches r pos s k]: [r] matches a prefix of [s], which starts at
    offset [pos] of the subject, and the continuation [k] accepts the
    offset and the text that follow.  Only the existence of a match is
    computed, which is all [re.match(...) is not None] observes. *)
Fixpoint matches (r : regex) (pos : nat) (s : string)
         (k : nat -> string -> bool) {struct r} : bool :=
  match r with
  | Eps => k pos s
  | Bol => Nat.eqb pos 0 && k pos s
  | Eol =>
      match s with
      | EmptyString => k pos s
      | String c EmptyString => Ascii.eqb c PyStr.newline && k pos s
      | _ => false
      end
  | Chr c =>
      match s with
      | String d s' => Ascii.eqb c d && k (S pos) s'
      | EmptyString => false
      end
  | Dot =>
      match s with
      | String d s' => negb (Ascii.eqb d PyStr.newline) && k (S pos) s'
      | EmptyString => false
      end
  | Seq r1 r2 => matches r1 pos s (fun pos' s' => matches r2 pos' s' k)
  | Alt r1 r2 => matches r1 pos s k || matches r2 pos s k
  | Opt r1 => matches r1 pos s k || k pos s
  | Plus r1 =>
      (fix iter (fuel : nat) (pos : nat) (s : string) {struct fuel} : bool :=
         match fuel with
         | 0 => false
         | S fuel' =>
             matches r1 pos s
               (fun pos' s' =>
                  k pos' s'
                  || (String.length s' <? String.length s) && iter fuel' pos' s')
         end) (S (String.length s)) pos s
  end.

(** The loop that [matches] runs for [.+], as a function of its own. *)
Section DotIter.
Variable k : nat -> string -> bool.

Fixpoint dot_iter (fuel pos : nat) (s : string) {struct fuel} : bool :=
  match fuel with
  | 0 => false
  | S fuel' =>
      matches Dot pos s
        (fun pos' s' =>
           k pos' s'
           || (String.length s' <? String.length s) && dot_iter fuel' pos' s')
  end.
End DotIter.

(** [re.match(r, s) is not None]: a match anchored at the start of [s];
    the end of the match need not be the end of [s]. *)
Definition re_match (r : regex) (s : string) : bool :=
  matches r 0 s (fun _ _ => true).

End Re.

(** ** [is_valid_youtube_url] (main.py, lines 38-40) *)

(** [(https?\:\/\/)?] *)
Definition scheme_re : Re.regex :=
  Re.Opt (Re.Seq (Re.lit "http") (Re.Seq (Re.Opt (Re.Chr "s")) (Re.lit "://"))).

(** [(www\.youtube\.com|youtu\.?be)] *)
Definition host_re : Re.regex :=
  Re.Alt (Re.lit "www.youtube.com")
         (Re.Seq (Re.lit "youtu") (Re.Seq (Re.Opt (Re.Chr ".")) (Re.lit "be"))).

(** [\/.+$] *)
Definition path_re : Re.regex :=
  Re.Seq (Re.Chr "/") (Re.Seq (Re.Plus Re.Dot) Re.Eol).

(** [^(https?\:\/\/)?(www\.youtube\.com|youtu\.?be)\/.+$] *)
Definition youtube_regex : Re.regex :=
  Re.Seq Re.Bol (Re.Seq scheme_re (Re.Seq host_re path_re)).

Definition is_valid_youtube_url (url : string) : bool :=
  Re.re_match youtube_regex url.


(** ** Exceptions, console, filesystem and call history *)

(** The subclasses of Python's [Exception] that the control flow tells
    apart, each with the text [str(e)] gives.  [LibraryError] stands for
    any other exception raised inside an external library. *)
Inductive exn : Type :=
| TranscriptsDisabled (msg : string)
| NoTranscriptFound (msg : string)
| ValueError (msg : string)
| AttributeError (msg : string)
| UnboundLocalError (msg : string)
| ZeroDivisionError (msg : string)
| FileNotFoundError (msg : string)
| LibraryError (msg : string).

(** [str(e)] *)
Definition exn_str (e : exn) : string :=
  match e with
  | TranscriptsDisabled m | NoTranscriptFound m | ValueError m
  | AttributeError m | UnboundLocalError m | ZeroDivisionError m
  | FileNotFoundError m | LibraryError m => m
  end.

(** The five pipeline stages of main.py. *)
Inductive Stage : Type :=
| F_download        (* download_youtube_audio_as_mp3 *)
| F_mp3_to_wav      (* convert_mp3_to_wav *)
| F_mp4_to_wav      (* convert_mp4_to_wav *)
| F_audio_to_text   (* convert_audio_to_text *)
| F_transcript.     (* get_youtube_transcript *)

(** The history of a run: which stage was entered with which argument,
    what it returned, and which files were written or removed. *)
Inductive Event : Type :=
| Call (f : Stage) (arg : string)
| Return (f : Stage) (r : option string)
| Written (path : string)
| Removed (path : string).

Record State : Type := mkState {
  files : gset string;      (* the regular files that exist *)
  stdout : list string;     (* the lines printed so far, oldest first *)
  trace : list Event        (* the history so far, oldest first *)
}.

Inductive Outcome (A : Type) : Type :=
| Ret (a : A)
| Raise (e : exn).
Arguments Ret {A} a.
Arguments Raise {A} e.

(** A statement: it runs in a state and either yields a value or raises. *)
Definition M (A : Type) : Type := State -> Outcome A * State.

#[global] Instance M_ret : MRet M := fun A a st => (Ret a, st).

#[global] Instance M_bind : MBind M := fun A B k m st =>
  match m st with
  | (Ret a, st') => k a st'
  | (Raise e, st') => (Raise e, st')
  end.

Definition raise {A : Type} (e : exn) : M A := fun st => (Raise e, st).

(** [try: body except Exception as e: handler(e)] *)
Definition try_except {A : Type} (body : M A) (handler : exn -> M A) : M A :=
  fun st =>
    match body st with
    | (Ret a, st') => (Ret a, st')
    | (Raise e, st') => handler e st'
    end.

(** A [try] whose first statement binds a local variable that the handlers
    read: the handler gets [None] when the exception came before the
    variable was bound. *)
Definition try_except_bound {L A : Type} (first : M L) (rest : L -> M A)
    (handler : option L -> exn -> M A) : M A :=
  fun st =>
    match first st with
    | (Raise e, st') => handler None e st'
    | (Ret l, st') =>
        match rest l st' with
        | (Ret a, st'') => (Ret a, st'')
        | (Raise e, st'') => handler (Some l) e st''
        end
    end.

(** [print(line)] *)
Definition print (line : string) : M unit := fun st =>
  (Ret tt, mkState (files st) (stdout st ++ [line]) (trace st)).

Definition log (e : Event) : M unit := fun st =>
  (Ret tt, mkState (files st) (stdout st) (trace st ++ [e])).

(** A stage function: its entry and its return value go to the history. *)
Definition traced (f : Stage) (arg : string) (body : M (option string))
  : M (option string) :=
  log (Call f arg);; r ← body; log (Return f r);; mret r.

(** [os.path.isfile(path)] *)
Definition os_path_isfile (path : string) : M bool := fun st =>
  (Ret (bool_decide (path ∈ files st)), st).

(** A library call that fails with some exception of its own or yields a
    value. *)
Definition lib_call {A : Type} (oracle : State -> string + A) : M A := fun st =>
  match oracle st with
  | inl msg => (Raise (LibraryError msg), st)
  | inr a => (Ret a, st)
  end.

(** A call into youtube_transcript_api, which raises what it likes. *)
Definition api_call {A : Type} (oracle : State -> exn + A) : M A := fun st =>
  match oracle st with
  | inl e => (Raise e, st)
  | inr a => (Ret a, st)
  end.

(** The file [path] now exists. *)
Definition written (path : string) : M unit := fun st =>
  (Ret tt, mkState ({[path]} ∪ files st) (stdout st) (trace st ++ [Written path])).

(** A library call that writes the file [path] when it succeeds. *)
Definition lib_write (oracle : State -> option string) (path : string) : M unit :=
  fun st =>
    match oracle st with
    | Some msg => (Raise (LibraryError msg), st)
    | None => written path st
    end.

(** What a call of MoviePy's [write_audiofile] comes to: refused before
    anything is done, failed while writing, or written. *)
Inductive MoviePyWrite : Type :=
| mp_refused (msg : string)
| mp_failed (msg : string)
| mp_written.

(** [clip.write_audiofile(path)]: MoviePy announces the file on stdout,
    writes it and reports that it is done. *)
Definition moviepy_write (oracle : State -> MoviePyWrite) (path : string) : M unit :=
  fun st =>
    match oracle st with
    | mp_refused msg => (Raise (LibraryError msg), st)
    | mp_failed msg =>
        (print ("MoviePy - Writing audio in " +:+ path);;
         raise (LibraryError msg)) st
    | mp_written =>
        (print ("MoviePy - Writing audio in " +:+ path);;
         written path;;
         print "MoviePy - Done.") st
    end.

(** ** The external libraries *)

(** A caption entry as youtube_transcript_api returns it (times in
    milliseconds). *)
Record Entry : Type := mkEntry {
  text : string;
  start : nat;
  duration : nat
}.

(** What the libraries answer.  Every answer may depend on the state of the
    run, so that the same call can succeed once and fail later.  [inl]
    carries the exception raised: its message for pytube, moviepy, pydub,
    wave and whisper, which know nothing of the exception classes of
    youtube_transcript_api, and the exception itself for the latter. *)
Record Env : Type := mkEnv {
  (* pytube *)
  pytube_YouTube : State -> string -> string + string;
      (* YouTube(url): the video id *)
  pytube_first_audio : State -> string -> string + option nat;
      (* yt.streams.filter(only_audio=True).first(): its filesize, if any *)
  pytube_download : State -> string -> string -> string + string;
      (* audio_stream.download(filename=...): the path written *)
  (* moviepy *)
  moviepy_AudioFileClip : State -> string -> string + unit;
  moviepy_VideoFileClip : State -> string -> string + bool;
      (* VideoFileClip(path): whether video.audio is not None *)
  moviepy_write_audiofile : State -> string -> string -> MoviePyWrite;
      (* clip of the first path written to the second *)
  (* pydub *)
  pydub_from_mp3 : State -> string -> string + unit;
  pydub_export : State -> string -> string -> option string;
  (* os *)
  os_remove_error : State -> string -> option string;
      (* why an existing file cannot be removed, if so *)
  getenv_WHISPER_MODEL : option string;
  (* wave *)
  wave_open : State -> string -> string + nat * nat;
      (* getnframes(), getframerate() *)
  (* torch, whisper *)
  cuda_is_available : bool;
  whisper_load_model : State -> string -> string -> string + unit;
  whisper_transcribe : State -> string -> string -> string + string;
      (* model.transcribe(path, language=...)["text"] *)
  (* youtube_transcript_api *)
  api_list_transcripts : State -> string -> exn + unit;
  api_find_transcript : State -> string -> string -> exn + unit;
  api_fetch : State -> string -> string -> exn + list Entry
}.

(** The parsed command line. *)
Record Args : Type := mkArgs {
  source : string;
  language : string;
  ignore_transcript : bool
}.

(** ** The pipeline *)

Section Pipeline.

Variable E : Env.

(** [os.remove(path)] *)
Definition os_remove (path : string) : M unit := fun st =>
  if bool_decide (path ∈ files st) then
    match os_remove_error E st path with
    | Some msg => (Raise (LibraryError msg), st)
    | None => (Ret tt, mkState (files st ∖ {[path]}) (stdout st)
                               (trace st ++ [Removed path]))
    end
  else (Raise (FileNotFoundError "No such file or directory"), st).

(** main.py, lines 46-62: the body of the [try]. *)
Definition download_youtube_audio_as_mp3_body (url : string) : M (option string) :=
  video_id ← lib_call (fun st => pytube_YouTube E st url);
  audio_stream ← lib_call (fun st => pytube_first_audio E st url);
  match audio_stream with
  | None =>
      raise (AttributeError "'NoneType' object has no attribute 'filesize'")
  | Some _ =>
      temp_file ← lib_call (fun st =>
                     pytube_download E st url (video_id +:+ ".mp4"));
      written temp_file;;
      let output_path := video_id +:+ ".mp3" in
      lib_call (fun st => moviepy_AudioFileClip E st temp_file);;
      moviepy_write (fun st => moviepy_write_audiofile E st temp_file output_path)
                    output_path;;
      os_remove temp_file;;
      mret (Some output_path)
  end.

(** main.py, lines 43-65.  The progress bar only displays. *)
Definition download_youtube_audio_as_mp3 (url : string) : M (option string) :=
  traced F_download url
    (try_except
       (download_youtube_audio_as_mp3_body url)
       (fun e =>
          print ("Error downloading YouTube video: " +:+ exn_str e);;
          mret None)).

(** main.py, lines 70-73: the body of the [try]. *)
Definition convert_mp3_to_wav_body (mp3_path : string) : M (option string) :=
  lib_call (fun st => pydub_from_mp3 E st mp3_path);;
  let wav_path := PyStr.replace mp3_path ".mp3" ".wav" in
  lib_write (fun st => pydub_export E st mp3_path wav_path) wav_path;;
  mret (Some wav_path).

(** main.py, lines 68-76 *)
Definition convert_mp3_to_wav (mp3_path : string) : M (option string) :=
  traced F_mp3_to_wav mp3_path
    (try_except
       (convert_mp3_to_wav_body mp3_path)
       (fun e =>
          print ("Error converting MP3 to WAV: " +:+ exn_str e);;
          mret None)).

(** main.py, lines 81-85: the body of the [try]. *)
Definition convert_mp4_to_wav_body (mp4_path : string) : M (option string) :=
  audio ← lib_call (fun st => moviepy_VideoFileClip E st mp4_path);
  let wav_path := PyStr.replace mp4_path ".mp4" ".wav" in
  (if audio : bool
   then moviepy_write (fun st => moviepy_write_audiofile E st mp4_path wav_path)
                      wav_path
   else raise (AttributeError
                 "'NoneType' object has no attribute 'write_audiofile'"));;
  mret (Some wav_path).

(** main.py, lines 79-88 *)
Definition convert_mp4_to_wav (mp4_path : string) : M (option string) :=
  traced F_mp4_to_wav mp4_path
    (try_except
       (convert_mp4_to_wav_body mp4_path)
       (fun e =>
          print ("Error converting MP4 to WAV: " +:+ exn_str e);;
          mret None)).

(** main.py, lines 91-96.  The argument is [None] when a conversion
    failed; [wave.open] then fails on reading from it.  The duration is
    kept as the pair (frames, rate) it is the quotient of. *)
Definition get_audio_length (audio_path : option string) : M (nat * nat) :=
  match audio_path with
  | None => raise (AttributeError "'NoneType' object has no attribute 'read'")
  | Some path =>
      fr ← lib_call (fun st => wave_open E st path);
      match snd fr with
      | 0 => raise (ZeroDivisionError "float division by zero")
      | S _ => mret fr
      end
  end.

(** main.py, lines 101-121: the body of the [try]. *)
Definition convert_audio_to_text_body (audio_path language : string)
  : M (option string) :=
  audio_path ←
    (if negb (PyStr.endswith audio_path ".wav") then
       if PyStr.endswith audio_path ".mp3" then
         convert_mp3_to_wav audio_path
       else if PyStr.endswith audio_path ".mp4" then
         convert_mp4_to_wav audio_path
       else
         raise (ValueError
                  "Unsupported file format. Only MP3 and MP4 are supported.")
     else mret (Some audio_path));
  audio_length ← get_audio_length audio_path;
  let model_name := default "large-v3" (getenv_WHISPER_MODEL E) in
  let device := if cuda_is_available E then "cuda" else "cpu" in
  lib_call (fun st => whisper_load_model E st model_name device);;
  match audio_path with
  | None => (* not reached: get_audio_length has raised *)
      raise (LibraryError "expected str, got NoneType")
  | Some path =>
      result ← lib_call (fun st => whisper_transcribe E st path language);
      mret (Some result)
  end.

(** main.py, lines 99-124 *)
Definition convert_audio_to_text (audio_path language : string)
  : M (option string) :=
  traced F_audio_to_text audio_path
    (try_except
       (convert_audio_to_text_body audio_path language)
       (fun e =>
          print ("Error transcribing audio: " +:+ exn_str e);;
          mret None)).

(** main.py, line 129: the first statement of the [try], which binds
    [video_id]. *)
Definition get_youtube_transcript_video_id (url : string) : M string :=
  lib_call (fun st => pytube_YouTube E st url).

(** main.py, lines 130-133: the rest of the [try]. *)
Definition get_youtube_transcript_text (language video_id : string)
  : M (option string) :=
  api_call (fun st => api_list_transcripts E st video_id);;
  api_call (fun st => api_find_transcript E st video_id language);;
  print ("Retrieving transcript for video: " +:+ video_id);;
  entries ← api_call (fun st => api_fetch E st video_id language);
  mret (Some (PyStr.join " " (map text entries))).

(** main.py, lines 127-139.  The first handler reads [video_id], which is
    unbound while [YouTube(url)] has not returned. *)
Definition get_youtube_transcript (url language : string) : M (option string) :=
  traced F_transcript url
    (try_except_bound
       (get_youtube_transcript_video_id url)
       (get_youtube_transcript_text language)
       (fun video_id e =>
          match e with
          | TranscriptsDisabled _ | NoTranscriptFound _ =>
              match video_id with
              | Some v =>
                  print ("No transcript available for video: " +:+ v);;
                  mret None
              | None =>
                  raise (UnboundLocalError
                           "cannot access local variable 'video_id'")
              end
          | _ =>
              print ("Error retrieving transcript: " +:+ exn_str e);;
              mret None
          end)).

(** main.py, lines 185-186 *)
Definition print_text (text : option string) : M unit :=
  match text with
  | Some t => print t
  | None => mret tt
  end.

(** main.py, lines 159-186, after [parse_args].  An early [return] ends
    the branch it is in; the other branches continue with the final
    [if text is not None]. *)
Definition main (args : Args) : M unit :=
  is_file ← os_path_isfile (source args);
  if is_file : bool then
    if PyStr.endswith (source args) ".mp4" then
      audio_file ← convert_mp4_to_wav (source args);
      match audio_file with
      | None => print "Failed to convert MP4 to WAV."
      | Some audio_file =>
          text ← convert_audio_to_text audio_file (language args);
          print_text text
      end
    else
      text ← convert_audio_to_text (source args) (language args);
      print_text text
  else if is_valid_youtube_url (source args) then
    text ← (if ignore_transcript args then mret None
            else get_youtube_transcript (source args) (language args));
    match text with
    | None =>
        audio_file ← download_youtube_audio_as_mp3 (source args);
        match audio_file with
        | None => print "Failed to download or convert YouTube video to audio."
        | Some audio_file =>
            text ← convert_audio_to_text audio_file (language args);
            print_text text
        end
    | Some _ => print_text text
    end
  else
    print "Invalid source. Please provide a valid YouTube URL or local audio file path.".

(** [if __name__ == "__main__": main()]: the exit status of the process
    is 0 when [main] returns and 1 when an exception escapes it. *)
Definition exit_status (args : Args) (st : State) : nat :=
  match fst (main args st) with
  | Ret _ => 0
  | Raise _ => 1
  end.

End Pipeline.

(** ** The URL pattern in words *)

Fixpoint no_newline (s : string) : bool :=
  match s with
  | EmptyString => true
  | String c s' => negb (Ascii.eqb c PyStr.newline) && no_newline s'
  end.

(** The pattern as the specification words it: an optional [http://] or
    [https://], then [www.youtube.com] or [youtu.be], then [/] and at
    least one further character. *)
Definition spec_url_pattern (s : string) : Prop :=
  exists scheme host rest : string,
    In scheme [""; "http://"; "https://"] /\
    In host ["www.youtube.com"; "youtu.be"] /\
    rest <> "" /\
    s = scheme +:+ host +:+ "/" +:+ rest.

(** The pattern the regular expression of the source denotes: the host may
    also be [youtube], the characters after the [/] are not newlines, and
    one newline may end the string. *)
Definition code_url_pattern (s : string) : Prop :=
  exists scheme host rest tail : string,
    In scheme [""; "http://"; "https://"] /\
    In host ["www.youtube.com"; "youtu.be"; "youtube"] /\
    rest <> "" /\ no_newline rest = true /\
    In tail [""; String PyStr.newline ""] /\
    s = scheme +:+ host +:+ "/" +:+ rest +:+ tail.

(** ** Reading a run *)

(** The state a stage body starts in, once its entry is in the history. *)
Definition entered (f : Stage) (arg : string) (st : State) : State :=
  mkState (files st) (stdout st) (trace st ++ [Call f arg]).

(** The state a stage leaves when it returns [r]. *)
Definition returned (f : Stage) (r : option string) (st : State) : State :=
  mkState (files st) (stdout st) (trace st ++ [Return f r]).

Definition printed (line : string) (st : State) : State :=
  mkState (files st) (stdout st ++ [line]) (trace st).

(** Stage [f] was entered in the events [evs]. *)
Definition called (f : Stage) (evs : list Event) : Prop :=
  exists arg, In (Call f arg) evs.

(** The stages that run inside a run of [f]: the two conversions inside the
    transcription stage, none inside the others. *)
Definition callees (f : Stage) : list Stage :=
  match f with
  | F_audio_to_text => [F_mp3_to_wav; F_mp4_to_wav]
  | _ => []
  end.

Definition Stage_eqb (f g : Stage) : bool :=
  match f, g with
  | F_download, F_download | F_mp3_to_wav, F_mp3_to_wav
  | F_mp4_to_wav, F_mp4_to_wav | F_audio_to_text, F_audio_to_text
  | F_transcript, F_transcript => true
  | _, _ => false
  end.

(** The events a run of stage [f] may leave between its entry and its
    return: files are written by all stages but the transcript fetch, and
    removed by the download only. *)
Definition within (f : Stage) (e : Event) : bool :=
  match e with
  | Call g _ | Return g _ => existsb (Stage_eqb g) (callees f)
  | Written _ => negb (Stage_eqb f F_transcript)
  | Removed _ => Stage_eqb f F_download
  end.

(** The stage a call or return event is of. *)
Definition stage_of (e : Event) : option Stage :=
  match e with
  | Call g _ | Return g _ => Some g
  | _ => None
  end.

(** The messages the program, and MoviePy inside it, print besides the
    text itself. *)
Definition console_messages : list string :=
  [ "MoviePy - Writing audio in ";
    "MoviePy - Done.";
    "Error downloading YouTube video: ";
    "Error converting MP3 to WAV: ";
    "Error converting MP4 to WAV: ";
    "Error transcribing audio: ";
    "Retrieving transcript for video: ";
    "No transcript available for video: ";
    "Error retrieving transcript: ";
    "Failed to convert MP4 to WAV.";
    "Failed to download or convert YouTube video to audio.";
    "Invalid source. Please provide a valid YouTube URL or local audio file path." ].

Definition is_console_message (line : string) : bool :=
  existsb (PyStr.startswith line) console_messages.

(** The events of one run of a stage. *)
Definition span (f : Stage) (arg : string) (mid : list Event) (r : option string)
  : list Event :=
  Call f arg :: mid ++ [Return f r].

(** The run of a stage from [st] to [st'] with result [r]: what it left in
    the history, what it printed and what it did to the files.  A file is
    removed by the download only, and then its events are: the container
    written, its mp3 export written, the container removed. *)
Record Ran (f : Stage) (arg : string) (st : State) (r : option string)
    (st' : State) (mid : list Event) (lines : list string) : Prop := mkRan {
  ran_trace : trace st' = trace st ++ span f arg mid r;
  ran_within : forallb (within f) mid = true;
  ran_stdout : stdout st' = stdout st ++ lines;
  ran_console : forallb is_console_message lines = true;
  ran_message : r = None -> lines <> [];
  ran_files : forall p, p ∈ files st -> p ∈ files st' \/ In (Removed p) mid;
  ran_removed : forall q, In (Removed q) mid ->
    f = F_download /\
    exists vid, mid = [Written q; Written (vid +:+ ".mp3"); Removed q] /\
                r = Some (vid +:+ ".mp3")
}.

(** The stage functions by name; [lang] is the language of the run. *)
Definition run_stage (E : Env) (lang : string) (f : Stage) (arg : string)
  : M (option string) :=
  match f with
  | F_download => download_youtube_audio_as_mp3 E arg
  | F_mp3_to_wav => convert_mp3_to_wav E arg
  | F_mp4_to_wav => convert_mp4_to_wav E arg
  | F_audio_to_text => convert_audio_to_text E arg lang
  | F_transcript => get_youtube_transcript E arg lang
  end.

(** Stage [f] ran on [arg] from [st], returned [r] and left [st']. *)
Definition Step (E : Env) (lang : string) (f : Stage) (arg : string)
    (st : State) (r : option string) (st' : State) (mid : list Event)
    (lines : list string) : Prop :=
  run_stage E lang f arg st = (Ret r, st') /\ Ran f arg st r st' mid lines.

(** main.py, lines 185-186, as a change of state and as lines printed. *)
Definition output (text : option string) (st : State) : State :=
  match text with
  | Some t => printed t st
  | None => st
  end.

Definition text_lines (text : option string) : list string :=
  match text with
  | Some t => [t]
  | None => []
  end.

(** The first half of the URL branch (lines 169-173) when it ends without
    a text: the fetch is skipped, or it ran and returned [None]. *)
Definition NoText (E : Env) (args : Args) (st st0 : State)
    (evs0 : list Event) (lines0 : list string) : Prop :=
  (ignore_transcript args = true /\ st0 = st /\ evs0 = [] /\ lines0 = []) \/
  (ignore_transcript args = false /\
   exists mid, Step E (language args) F_transcript (source args) st None st0 mid lines0 /\
               evs0 = span F_transcript (source args) mid None).

(** The paths through [main]: the state each one ends in, the events it
    adds to the history and the lines it prints. *)
Inductive MainRun (E : Env) (args : Args) (st : State)
  : State -> list Event -> list string -> Prop :=
| MR_invalid :
    source args ∉ files st ->
    is_valid_youtube_url (source args) = false ->
    MainRun E args st
      (printed "Invalid source. Please provide a valid YouTube URL or local audio file path." st)
      []
      ["Invalid source. Please provide a valid YouTube URL or local audio file path."]
| MR_file_mp4_failed st1 mid1 lines1 :
    source args ∈ files st ->
    PyStr.endswith (source args) ".mp4" = true ->
    Step E (language args) F_mp4_to_wav (source args) st None st1 mid1 lines1 ->
    MainRun E args st
      (printed "Failed to convert MP4 to WAV." st1)
      (span F_mp4_to_wav (source args) mid1 None)
      (lines1 ++ ["Failed to convert MP4 to WAV."])
| MR_file_mp4 audio_file st1 mid1 lines1 text st2 mid2 lines2 :
    source args ∈ files st ->
    PyStr.endswith (source args) ".mp4" = true ->
    Step E (language args) F_mp4_to_wav (source args) st (Some audio_file) st1 mid1 lines1 ->
    Step E (language args) F_audio_to_text audio_file st1 text st2 mid2 lines2 ->
    MainRun E args st
      (output text st2)
      (span F_mp4_to_wav (source args) mid1 (Some audio_file)
       ++ span F_audio_to_text audio_file mid2 text)
      (lines1 ++ lines2 ++ text_lines text)
| MR_file text st2 mid2 lines2 :
    source args ∈ files st ->
    PyStr.endswith (source args) ".mp4" = false ->
    Step E (language args) F_audio_to_text (source args) st text st2 mid2 lines2 ->
    MainRun E args st
      (output text st2)
      (span F_audio_to_text (source args) mid2 text)
      (lines2 ++ text_lines text)
| MR_transcript t st1 mid1 lines1 :
    source args ∉ files st ->
    is_valid_youtube_url (source args) = true ->
    ignore_transcript args = false ->
    Step E (language args) F_transcript (source args) st (Some t) st1 mid1 lines1 ->
    MainRun E args st
      (printed t st1)
      (span F_transcript (source args) mid1 (Some t))
      (lines1 ++ [t])
| MR_download_failed st0 evs0 lines0 st1 mid1 lines1 :
    source args ∉ files st ->
    is_valid_youtube_url (source args) = true ->
    NoText E args st st0 evs0 lines0 ->
    Step E (language args) F_download (source args) st0 None st1 mid1 lines1 ->
    MainRun E args st
      (printed "Failed to download or convert YouTube video to audio." st1)
      (evs0 ++ span F_download (source args) mid1 None)
      (lines0 ++ lines1 ++ ["Failed to download or convert YouTube video to audio."])
| MR_download st0 evs0 lines0 audio_file st1 mid1 lines1 text st2 mid2 lines2 :
    source args ∉ files st ->
    is_valid_youtube_url (source args) = true ->
    NoText E args st st0 evs0 lines0 ->
    Step E (language args) F_download (source args) st0 (Some audio_file) st1 mid1 lines1 ->
    Step E (language args) F_audio_to_text audio_file st1 text st2 mid2 lines2 ->
    MainRun E args st
      (output text st2)
      (evs0 ++ span F_download (source args) mid1 (Some audio_file)
       ++ span F_audio_to_text audio_file mid2 text)
      (lines0 ++ lines1 ++ lines2 ++ text_lines text).

(** The captions API has a transcript of the video of [url] in [lang],
    with the entries [entries]. *)
Definition transcript_available (E : Env) (url lang vid : string)
    (entries : list Entry) : Prop :=
  (forall st, pytube_YouTube E st url = inr vid) /\
  (forall st, api_list_transcripts E st vid = inr tt) /\
  (forall st, api_find_transcript E st vid lang = inr tt) /\
  (forall st, api_fetch E st vid lang = inr entries).

(** ** The waveform path in words *)

(** [s[:n]] *)
Fixpoint take (n : nat) (s : string) : string :=
  match n with
  | 0 => EmptyString
  | S n' => match s with EmptyString => EmptyString | String c s' => String c (take n' s') end
  end.

(** No character of [s] is a dot. *)
Fixpoint no_dot (s : string) : bool :=
  match s with
  | EmptyString => true
  | String c s' => negb (Ascii.eqb "." c) && no_dot s'
  end.

(** The path the specification promises: [path] with its suffix [old]
    replaced by [new], the rest unchanged. *)
Definition with_suffix_replaced (path old new : string) : option string :=
  if PyStr.endswith path old
  then Some (take (String.length path - String.length old) path +:+ new)
  else None.

(** ** Two concrete worlds *)

(** Every library call succeeds. *)
Definition env_ok : Env := {|
  pytube_YouTube := fun _ _ => inr "dQw4w9WgXcQ";
  pytube_first_audio := fun _ _ => inr (Some 512);
  pytube_download := fun _ _ filename => inr ("/work/" +:+ filename);
  moviepy_AudioFileClip := fun _ _ => inr tt;
  moviepy_VideoFileClip := fun _ _ => inr true;
  moviepy_write_audiofile := fun _ _ _ => mp_written;
  pydub_from_mp3 := fun _ _ => inr tt;
  pydub_export := fun _ _ _ => None;
  os_remove_error := fun _ _ => None;
  getenv_WHISPER_MODEL := None;
  wave_open := fun _ _ => inr (480, 160);
  cuda_is_available := false;
  whisper_load_model := fun _ _ _ => inr tt;
  whisper_transcribe := fun _ _ _ => inr "hello world";
  api_list_transcripts := fun _ _ => inr tt;
  api_find_transcript := fun _ _ _ => inr tt;
  api_fetch := fun _ _ _ => inr [mkEntry "never gonna" 0 1500; mkEntry "give you up" 1500 1500]
|}.

(** Every library call fails. *)
Definition env_down : Env := {|
  pytube_YouTube := fun _ _ => inl "regex_search: could not find match";
  pytube_first_audio := fun _ _ => inl "HTTP Error 400";
  pytube_download := fun _ _ _ => inl "HTTP Error 400";
  moviepy_AudioFileClip := fun _ _ => inl "could not read file";
  moviepy_VideoFileClip := fun _ _ => inl "could not read file";
  moviepy_write_audiofile := fun _ _ _ => mp_failed "could not write file";
  pydub_from_mp3 := fun _ _ => inl "Decoding failed";
  pydub_export := fun _ _ _ => Some "Encoding failed";
  os_remove_error := fun _ _ => Some "Permission denied";
  getenv_WHISPER_MODEL := None;
  wave_open := fun _ _ => inl "file does not start with RIFF id";
  cuda_is_available := false;
  whisper_load_model := fun _ _ _ => inl "out of memory";
  whisper_transcribe := fun _ _ _ => inl "out of memory";
  api_list_transcripts := fun _ _ => inl (TranscriptsDisabled "Subtitles are disabled for this video");
  api_find_transcript := fun _ _ _ => inl (NoTranscriptFound "No transcripts were found");
  api_fetch := fun _ _ _ => inl (LibraryError "connection reset")
|}.

(** The captions API has a transcript, with no entry in it. *)
Definition env_empty_transcript : Env := {|
  pytube_YouTube := pytube_YouTube env_ok;
  pytube_first_audio := pytube_first_audio env_ok;
  pytube_download := pytube_download env_ok;
  moviepy_AudioFileClip := moviepy_AudioFileClip env_ok;
  moviepy_VideoFileClip := moviepy_VideoFileClip env_ok;
  moviepy_write_audiofile := moviepy_write_audiofile env_ok;
  pydub_from_mp3 := pydub_from_mp3 env_ok;
  pydub_export := pydub_export env_ok;
  os_remove_error := os_remove_error env_ok;
  getenv_WHISPER_MODEL := None;
  wave_open := wave_open env_ok;
  cuda_is_available := false;
  whisper_load_model := whisper_load_model env_ok;
  whisper_transcribe := whisper_transcribe env_ok;
  api_list_transcripts := api_list_transcripts env_ok;
  api_find_transcript := api_find_transcript env_ok;
  api_fetch := fun _ _ _ => inr []
|}.

Definition empty_state : State := mkState ∅ [] [].

(** A state in which only the file [path] exists. *)
Definition state_with (path : string) : State := mkState {[path]} [] [].

(** ** Concrete runs *)

Definition url_args (ignore : bool) : Args :=
  mkArgs "https://youtu.be/dQw4w9WgXcQ" "en" ignore.


(** The state in which the conversion of [talk.mp3] has failed inside the
    transcription stage, all libraries being down. *)
Definition talk_failed : State :=
  returned F_mp3_to_wav None
    (printed "Error converting MP3 to WAV: Decoding failed"
       (entered F_mp3_to_wav "talk.mp3"
          (entered F_audio_to_text "talk.mp3" (state_with "talk.mp3")))).

(** ** Definitions for the further properties *)

(** The messages a stage prints last when it returns [None]. *)
Definition failure_messages (f : Stage) : list string :=
  match f with
  | F_download => ["Error downloading YouTube video: "]
  | F_mp3_to_wav => ["Error converting MP3 to WAV: "]
  | F_mp4_to_wav => ["Error converting MP4 to WAV: "]
  | F_audio_to_text => ["Error transcribing audio: "]
  | F_transcript => ["No transcript available for video: ";
                     "Error retrieving transcript: "]
  end.

(** The extension each conversion replaces. *)
Definition conversion_ext (f : Stage) : option string :=
  match f with
  | F_mp3_to_wav => Some ".mp3"
  | F_mp4_to_wav => Some ".mp4"
  | _ => None
  end.

(** Every library call succeeds, but the header of the waveform file
    gives a frame rate of zero. *)
Definition env_zero_rate : Env := {|
  pytube_YouTube := pytube_YouTube env_ok;
  pytube_first_audio := pytube_first_audio env_ok;
  pytube_download := pytube_download env_ok;
  moviepy_AudioFileClip := moviepy_AudioFileClip env_ok;
  moviepy_VideoFileClip := moviepy_VideoFileClip env_ok;
  moviepy_write_audiofile := moviepy_write_audiofile env_ok;
  pydub_from_mp3 := pydub_from_mp3 env_ok;
  pydub_export := pydub_export env_ok;
  os_remove_error := os_remove_error env_ok;
  getenv_WHISPER_MODEL := None;
  wave_open := fun _ _ => inr (480, 0);
  cuda_is_available := false;
  whisper_load_model := whisper_load_model env_ok;
  whisper_transcribe := whisper_transcribe env_ok;
  api_list_transcripts := api_list_transcripts env_ok;
  api_find_transcript := api_find_transcript env_ok;
  api_fetch := api_fetch env_ok
|}.

(** ** The progress bar of the download (main.py, lines 32-35) *)

Module Progress.

(** The state of a [tqdm] bar that the callback reads and writes: the count
    shown and the total. *)
Record Tqdm : Type := mkTqdm {
  n : Z;
  total : Z
}.

(** [tqdm(total=...)] *)
Definition tqdm (total : Z) : Tqdm := mkTqdm 0 total.

(** [bar.update(k)]: the count moves by [k]. *)
Definition update (k : Z) (bar : Tqdm) : Tqdm :=
  mkTqdm (n bar + k) (total bar).

(** [on_progress_callback(stream, chunk, bytes_remaining)], with
    [stream.filesize] as [filesize] and the global [tqdm_instance] passed
    in and out. *)
Definition on_progress_callback (filesize bytes_remaining : Z)
    (tqdm_instance : Tqdm) : Tqdm :=
  let total_size := filesize in
  let bytes_downloaded := (total_size - bytes_remaining)%Z in
  update (bytes_downloaded - n tqdm_instance) tqdm_instance.

(** The callbacks of one download, one per chunk, each with the bytes that
    remain after it. *)
Definition callbacks (filesize : Z) (remaining : list Z) (bar : Tqdm) : Tqdm :=
  fold_left (fun b r => on_progress_callback filesize r b) remaining bar.

End Progress.

(** pytube delivers the container, but MoviePy cannot read it. *)
Definition env_bad_container : Env := {|
  pytube_YouTube := pytube_YouTube env_ok;
  pytube_first_audio := pytube_first_audio env_ok;
  pytube_download := pytube_download env_ok;
  moviepy_AudioFileClip := fun _ _ => inl "could not read file";
  moviepy_VideoFileClip := moviepy_VideoFileClip env_ok;
  moviepy_write_audiofile := moviepy_write_audiofile env_ok;
  pydub_from_mp3 := pydub_from_mp3 env_ok;
  pydub_export := pydub_export env_ok;
  os_remove_error := os_remove_error env_ok;
  getenv_WHISPER_MODEL := None;
  wave_open := wave_open env_ok;
  cuda_is_available := false;
  whisper_load_model := whisper_load_model env_ok;
  whisper_transcribe := whisper_transcribe env_ok;
  api_list_transcripts := api_list_transcripts env_ok;
  api_find_transcript := api_find_transcript env_ok;
  api_fetch := api_fetch env_ok
|}.

(** The exceptions of the first [except] clause of
    [get_youtube_transcript]. *)
Definition no_transcript_exn (e : exn) : bool :=
  match e with
  | TranscriptsDisabled _ | NoTranscriptFound _ => true
  | _ => false
  end.

(** The line the transcript fetch prints for an exception raised once the
    video id is known. *)
Definition transcript_failure_line (video_id : string) (e : exn) : string :=
  if no_transcript_exn e
  then "No transcript available for video: " +:+ video_id
  else "Error retrieving transcript: " +:+ exn_str e.

(** A stage is its [try] body run after the entry is recorded: a value of
    the body is returned as it is, an exception [e] of the body is turned
    into the line [message e] and the result None. *)
Definition handled (f : Stage) (arg : string) (body : M (option string))
    (message : exn -> string) (stage : M (option string)) : Prop :=
  forall st,
    match body (entered f arg st) with
    | (Ret r, st1) => stage st = (Ret r, returned f r st1)
    | (Raise e, st1) =>
        stage st = (Ret None, returned f None (printed (message e) st1))
    end.

(** The same for a [try] whose first statement binds the local variable
    that the message of a later exception names. *)
Definition handled_bound (f : Stage) (arg : string) (first : M string)
    (rest : string -> M (option string)) (message_first : exn -> string)
    (message : string -> exn -> string) (stage : M (option string)) : Prop :=
  forall st,
    match first (entered f arg st) with
    | (Raise e, st1) =>
        stage st = (Ret None, returned f None (printed (message_first e) st1))
    | (Ret v, st1) =>
        match rest v st1 with
        | (Ret r, st2) => stage st = (Ret r, returned f r st2)
        | (Raise e, st2) =>
            stage st = (Ret None, returned f None (printed (message v e) st2))
        end
    end.

(** The download of [url_args true] when MoviePy cannot read the
    container, from a state that holds one file. *)
Definition failed_download : State :=
  snd (run_stage env_bad_container "en" F_download (source (url_args true))
         (state_with "talk.mp3")).

(** A local file as the source, in English. *)
Definition file_args (path : string) : Args := mkArgs path "en" false.

Arguments PyStr.replace : simpl never.
Arguments PyStr.endswith : simpl never.
Arguments PyStr.join : simpl never.
Arguments is_valid_youtube_url : simpl never.

(** * Properties *)

(** ** Strings *)

Module PyStrFacts.
Import PyStr.

Lemma append_nil_l (s : string) : "" +:+ s = s.
Proof. reflexivity. Qed.

Lemma append_cons (c : ascii) (a b : string) :
  String c a +:+ b = String c (a +:+ b).
Proof. reflexivity. Qed.

Lemma append_nil_r (s : string) : s +:+ "" = s.
Proof.
  induction s as [|c s IH]; [reflexivity|]. now rewrite append_cons, IH.
Qed.

Lemma append_assoc (a b c : string) : (a +:+ b) +:+ c = a +:+ (b +:+ c).
Proof.
  induction a as [|x a IH]; [reflexivity|]. now rewrite !append_cons, IH.
Qed.

Lemma length_append (a b : string) :
  String.length (a +:+ b) = String.length a + String.length b.
Proof.
  induction a as [|x a IH]; [reflexivity|]. rewrite append_cons. cbn. now rewrite IH.
Qed.

Lemma startswith_iff (s p : string) :
  startswith s p = true <-> exists r, s = p +:+ r.
Proof.
  revert s; induction p as [|c p IH]; intros s; cbn.
  - split; [intros _; now exists s | reflexivity].
  - destruct s as [|d s].
    + split; [discriminate | intros [r Hr]; discriminate].
    + rewrite andb_true_iff, Ascii.eqb_eq, IH. split.
      * intros [-> [r ->]]. now exists r.
      * intros [r Hr]. injection Hr as -> ->. split; [reflexivity | now exists r].
Qed.

Lemma drop_append (a b : string) : drop (String.length a) (a +:+ b) = b.
Proof. induction a as [|x a IH]; cbn; [reflexivity | exact IH]. Qed.

Lemma drop_split (n : nat) (s : string) :
  n <= String.length s ->
  exists a, s = a +:+ drop n s /\ String.length a = n.
Proof.
  revert s; induction n as [|n IH]; intros s Hn.
  - now exists "".
  - destruct s as [|c s]; cbn in Hn; [lia|].
    destruct (IH s) as (a & Ha & Hl); [lia|].
    exists (String c a). rewrite append_cons. cbn.
    split; [now rewrite <- Ha | now rewrite Hl].
Qed.

(** [endswith] is what it says: [p] is a suffix. *)
Lemma endswith_iff (s p : string) :
  endswith s p = true <-> exists base, s = base +:+ p.
Proof.
  unfold endswith. rewrite andb_true_iff, Nat.leb_le, String.eqb_eq. split.
  - intros [Hle Hd].
    destruct (drop_split (String.length s - String.length p) s) as (a & Ha & _);
      [lia|].
    exists a. now rewrite <- Hd.
  - intros [base ->]. rewrite length_append. split; [lia|].
    replace (String.length base + String.length p - String.length p)
      with (String.length base) by lia.
    apply drop_append.
Qed.

Lemma append_inj_r (a b p q : string) :
  a +:+ p = b +:+ q -> String.length p = String.length q -> p = q.
Proof.
  revert b; induction a as [|x a IH]; intros b H Hl.
  - destruct b as [|y b]; [exact H|].
    apply (f_equal String.length) in H.
    rewrite !length_append in H. cbn in H. lia.
  - destruct b as [|y b].
    + apply (f_equal String.length) in H.
      rewrite !length_append in H. cbn in H. lia.
    + rewrite !append_cons in H. injection H as _ H. now apply (IH b).
Qed.

(** A string has one suffix of each length. *)
Lemma endswith_unique (s p q : string) :
  endswith s p = true -> endswith s q = true ->
  String.length p = String.length q -> p = q.
Proof.
  rewrite !endswith_iff. intros [a ->] [b Hb] Hl.
  now apply (append_inj_r a b).
Qed.

Lemma startswith_append (p r : string) : startswith (p +:+ r) p = true.
Proof. apply startswith_iff. now exists r. Qed.

End PyStrFacts.

(** ** The matcher on the pieces of the pattern *)

Module ReFacts.
Import Re PyStrFacts.

Lemma matches_lit (l : string) (pos : nat) (s : string) (k : nat -> string -> bool) :
  matches (lit l) pos s k = true <->
  exists r, s = l +:+ r /\ k (pos + String.length l) r = true.
Proof.
  revert pos s; induction l as [|c l IH]; intros pos s; cbn.
  - rewrite Nat.add_0_r. split; [intros H; now exists s | now intros (r & -> & H)].
  - destruct s as [|d s].
    + split; [discriminate | intros (r & Hr & _); discriminate].
    + rewrite andb_true_iff, Ascii.eqb_eq, IH. split.
      * intros [-> (r & -> & H)]. exists r. split; [reflexivity|].
        now rewrite <- Nat.add_succ_comm.
      * intros (r & Hr & H). injection Hr as -> ->. split; [reflexivity|].
        exists r. split; [reflexivity|]. now rewrite Nat.add_succ_comm.
Qed.

Lemma matches_chr (c : ascii) (pos : nat) (s : string) (k : nat -> string -> bool) :
  matches (Chr c) pos s k = true <->
  exists r, s = String c r /\ k (S pos) r = true.
Proof.
  cbn. destruct s as [|d s].
  - split; [discriminate | intros (r & Hr & _); discriminate].
  - rewrite andb_true_iff, Ascii.eqb_eq. split.
    + intros [-> H]. now exists s.
    + intros (r & Hr & H). injection Hr as -> ->. now split.
Qed.

Lemma matches_plus_dot (pos : nat) (s : string) (k : nat -> string -> bool) :
  matches (Plus Dot) pos s k = dot_iter k (S (String.length s)) pos s.
Proof. reflexivity. Qed.

Lemma dot_iter_spec (k : nat -> string -> bool) (fuel : nat) :
  forall pos s, String.length s < fuel ->
    dot_iter k fuel pos s = true <->
    exists a b, s = a +:+ b /\ a <> "" /\ no_newline a = true /\
                k (pos + String.length a) b = true.
Proof.
  induction fuel as [|fuel IH]; intros pos s Hlen; [lia|].
  cbn [dot_iter matches]. destruct s as [|d s].
  - split; [discriminate|]. intros (a & b & Hs & Ha & _).
    destruct a; [congruence | discriminate].
  - rewrite andb_true_iff, negb_true_iff, orb_true_iff, andb_true_iff.
    cbn [String.length] in *. split.
    + intros [Hd [Hk | [_ Hit]]].
      * exists (String d ""), s. cbn. rewrite Hd.
        repeat split; [discriminate | now rewrite Nat.add_1_r].
      * apply IH in Hit as (a & b & -> & Ha & Hnl & Hk); [|lia].
        exists (String d a), b. cbn. rewrite Hd, Hnl.
        repeat split; [discriminate | now rewrite <- Nat.add_succ_comm].
    + intros (a & b & Hs & Ha & Hnl & Hk).
      destruct a as [|x a]; [congruence|]. cbn in Hs. injection Hs as -> ->.
      cbn in Hnl. apply andb_true_iff in Hnl as [Hx Hnl].
      apply negb_true_iff in Hx. split; [exact Hx|].
      destruct a as [|y a].
      * left. cbn in Hk. now rewrite Nat.add_1_r in Hk.
      * right. split; [apply Nat.ltb_lt; lia|].
        rewrite length_append in Hlen. cbn in Hlen.
        apply IH; [rewrite length_append; cbn; lia|].
        exists (String y a), b. repeat split; [discriminate | exact Hnl |].
        cbn [String.length] in Hk |- *.
        replace (S pos + S (String.length a)) with (pos + S (S (String.length a)))
          by lia.
        exact Hk.
Qed.

Lemma matches_dots (pos : nat) (s : string) (k : nat -> string -> bool) :
  matches (Plus Dot) pos s k = true <->
  exists a b, s = a +:+ b /\ a <> "" /\ no_newline a = true /\
              k (pos + String.length a) b = true.
Proof. rewrite matches_plus_dot. apply dot_iter_spec. lia. Qed.

Lemma matches_eol (pos : nat) (s : string) :
  matches Eol pos s (fun _ _ => true) = true <->
  In s [""; String PyStr.newline ""].
Proof.
  cbn. destruct s as [|c [|d s]].
  - split; [now left | reflexivity].
  - rewrite andb_true_r, Ascii.eqb_eq. split.
    + intros ->. right. now left.
    + intros [H | [H | []]]; [discriminate | now injection H].
  - split; [discriminate | intros [H | [H | []]]; discriminate].
Qed.

End ReFacts.

(** ** [is_valid_youtube_url] against the pattern *)

Module UrlFacts.
Import Re PyStrFacts ReFacts.

Lemma matches_seq r1 r2 pos s k :
  matches (Seq r1 r2) pos s k = matches r1 pos s (fun pos' s' => matches r2 pos' s' k).
Proof. reflexivity. Qed.

Lemma matches_alt r1 r2 pos s k :
  matches (Alt r1 r2) pos s k = matches r1 pos s k || matches r2 pos s k.
Proof. reflexivity. Qed.

Lemma matches_opt r pos s k :
  matches (Opt r) pos s k = matches r pos s k || k pos s.
Proof. reflexivity. Qed.

Ltac peel H :=
  repeat first
    [ progress cbv beta in H
    | rewrite matches_seq in H
    | rewrite matches_alt in H
    | rewrite matches_opt in H ].

Lemma scheme_re_spec pos s k :
  matches scheme_re pos s k = true <->
  exists scheme r, In scheme [""; "http://"; "https://"] /\
                   s = scheme +:+ r /\ k (pos + String.length scheme) r = true.
Proof.
  unfold scheme_re. split.
  - intros H. peel H. apply orb_true_iff in H as [H | H].
    + apply matches_lit in H as (r1 & -> & H). peel H.
      apply orb_true_iff in H as [H | H].
      * apply matches_chr in H as (r2 & -> & H). peel H.
        apply matches_lit in H as (r3 & -> & H).
        exists "https://", r3. cbn [String.length] in *.
        split; [cbn; tauto|]. split; [reflexivity|].
        replace (pos + 8) with (S (pos + 4) + 3) by lia. exact H.
      * apply matches_lit in H as (r3 & -> & H).
        exists "http://", r3. cbn [String.length] in *.
        split; [cbn; tauto|]. split; [reflexivity|].
        replace (pos + 7) with (pos + 4 + 3) by lia. exact H.
    + exists "", s. split; [cbn; tauto|]. split; [reflexivity|].
      cbn. now rewrite Nat.add_0_r.
  - intros (scheme & r & Hin & -> & H). rewrite matches_opt, orb_true_iff.
    cbn [In] in Hin. destruct Hin as [<- | [<- | [<- | []]]].
    + right. cbn in H. now rewrite Nat.add_0_r in H.
    + left. rewrite matches_seq. apply matches_lit. exists ("://" +:+ r).
      split; [reflexivity|]. rewrite matches_seq, matches_opt, orb_true_iff.
      right. apply matches_lit. exists r. split; [reflexivity|].
      cbn [String.length] in *.
      replace (pos + 4 + 3) with (pos + 7) by lia. exact H.
    + left. rewrite matches_seq. apply matches_lit. exists ("s://" +:+ r).
      split; [reflexivity|]. rewrite matches_seq, matches_opt, orb_true_iff.
      left. apply matches_chr. exists ("://" +:+ r). split; [reflexivity|].
      apply matches_lit. exists r. split; [reflexivity|].
      cbn [String.length] in *.
      replace (S (pos + 4) + 3) with (pos + 8) by lia. exact H.
Qed.

Lemma host_re_spec pos s k :
  matches host_re pos s k = true <->
  exists host r, In host ["www.youtube.com"; "youtu.be"; "youtube"] /\
                 s = host +:+ r /\ k (pos + String.length host) r = true.
Proof.
  unfold host_re. split.
  - intros H. peel H. apply orb_true_iff in H as [H | H].
    + apply matches_lit in H as (r1 & -> & H).
      exists "www.youtube.com", r1. split; [cbn; tauto|]. now split.
    + apply matches_lit in H as (r1 & -> & H). peel H.
      apply orb_true_iff in H as [H | H].
      * apply matches_chr in H as (r2 & -> & H). peel H.
        apply matches_lit in H as (r3 & -> & H).
        exists "youtu.be", r3. cbn [String.length] in *.
        split; [cbn; tauto|]. split; [reflexivity|].
        replace (pos + 8) with (S (pos + 5) + 2) by lia. exact H.
      * apply matches_lit in H as (r3 & -> & H).
        exists "youtube", r3. cbn [String.length] in *.
        split; [cbn; tauto|]. split; [reflexivity|].
        replace (pos + 7) with (pos + 5 + 2) by lia. exact H.
  - intros (host & r & Hin & -> & H). rewrite matches_alt, orb_true_iff.
    cbn [In] in Hin. destruct Hin as [<- | [<- | [<- | []]]].
    + left. apply matches_lit. now exists r.
    + right. rewrite matches_seq. apply matches_lit. exists (".be" +:+ r).
      split; [reflexivity|]. rewrite matches_seq, matches_opt, orb_true_iff.
      left. apply matches_chr. exists ("be" +:+ r). split; [reflexivity|].
      apply matches_lit. exists r. split; [reflexivity|].
      cbn [String.length] in *.
      replace (S (pos + 5) + 2) with (pos + 8) by lia. exact H.
    + right. rewrite matches_seq. apply matches_lit. exists ("be" +:+ r).
      split; [reflexivity|]. rewrite matches_seq, matches_opt, orb_true_iff.
      right. apply matches_lit. exists r. split; [reflexivity|].
      cbn [String.length] in *.
      replace (pos + 5 + 2) with (pos + 7) by lia. exact H.
Qed.

Lemma path_re_spec pos s :
  matches path_re pos s (fun _ _ => true) = true <->
  exists rest tail, rest <> "" /\ no_newline rest = true /\
                    In tail [""; String PyStr.newline ""] /\
                    s = "/" +:+ rest +:+ tail.
Proof.
  unfold path_re. split.
  - intros H. peel H. apply matches_chr in H as (r1 & -> & H). peel H.
    apply matches_dots in H as (a & b & -> & Ha & Hnl & H).
    apply matches_eol in H. now exists a, b.
  - intros (rest & tail & Hr & Hnl & Ht & ->). rewrite matches_seq.
    apply matches_chr. exists (rest +:+ tail). split; [reflexivity|].
    rewrite matches_seq. apply matches_dots. exists rest, tail.
    repeat split; try assumption. now apply matches_eol.
Qed.

Lemma is_valid_youtube_url_spec (s : string) :
  is_valid_youtube_url s = true <-> code_url_pattern s.
Proof.
  unfold is_valid_youtube_url, re_match, code_url_pattern.
  unfold youtube_regex. rewrite matches_seq.
  change (matches Bol 0 s ?k) with (Nat.eqb 0 0 && k 0 s).
  cbn [Nat.eqb andb]. rewrite matches_seq. split.
  - intros H. apply scheme_re_spec in H as (scheme & r1 & Hs & -> & H).
    peel H. apply host_re_spec in H as (host & r2 & Hh & -> & H).
    apply path_re_spec in H as (rest & tail & Hr & Hnl & Ht & ->).
    exists scheme, host, rest, tail. repeat split; assumption.
  - intros (scheme & host & rest & tail & Hs & Hh & Hr & Hnl & Ht & ->).
    apply scheme_re_spec. exists scheme, (host +:+ "/" +:+ rest +:+ tail).
    repeat split; [assumption|]. rewrite matches_seq.
    apply host_re_spec. exists host, ("/" +:+ rest +:+ tail).
    repeat split; [assumption|]. apply path_re_spec. now exists rest, tail.
Qed.

End UrlFacts.

(** ** The stages one by one *)

Lemma Ran_intro f arg st r st' mid lines :
  trace st' = (trace st ++ Call f arg :: mid) ++ [Return f r] ->
  forallb (within f) mid = true ->
  stdout st' = stdout st ++ lines ->
  forallb is_console_message lines = true ->
  (r = None -> lines <> []) ->
  (forall p, p ∈ files st -> p ∈ files st' \/ In (Removed p) mid) ->
  (forall q, In (Removed q) mid ->
     f = F_download /\
     exists vid, mid = [Written q; Written (vid +:+ ".mp3"); Removed q] /\
                 r = Some (vid +:+ ".mp3")) ->
  Ran f arg st r st' mid lines.
Proof.
  intros H1 H2 H3 H4 H5 H6 H7. constructor; try assumption.
  rewrite H1, <- app_assoc. reflexivity.
Qed.

Ltac unfold_m :=
  unfold download_youtube_audio_as_mp3_body, convert_mp3_to_wav_body,
    convert_mp4_to_wav_body, convert_audio_to_text_body,
    get_youtube_transcript_video_id, get_youtube_transcript_text,
    traced, try_except, try_except_bound, lib_call, api_call, lib_write,
    moviepy_write, os_remove, written, print, log, raise, os_path_isfile,
    mbind, M_bind, mret, M_ret.

Ltac run := unfold_m; cbn; repeat (case_match; simplify_eq; cbn in * ).

Ltac no_removed :=
  let q := fresh "q" in let H := fresh "H" in
  intros q H; cbn in H; intuition discriminate.

Ltac ran_done :=
  eexists _, _, _, _; split; [reflexivity|];
  apply Ran_intro; cbn;
  [ f_equal; rewrite <- ?app_assoc; reflexivity
  | reflexivity
  | first [rewrite <- ?app_assoc; reflexivity | symmetry; apply app_nil_r]
  | reflexivity
  | let Hr := fresh in let Hl := fresh in
    intros Hr; first [discriminate Hr | intros Hl; discriminate Hl]
  | let q := fresh in let Hq := fresh in intros q Hq; left; set_solver
  | no_removed ].

Lemma convert_mp3_to_wav_ran E lang p st :
  exists r st' mid lines, Step E lang F_mp3_to_wav p st r st' mid lines.
Proof.
  unfold Step, run_stage, convert_mp3_to_wav. run; ran_done.
Qed.

Lemma convert_mp4_to_wav_ran E lang p st :
  exists r st' mid lines, Step E lang F_mp4_to_wav p st r st' mid lines.
Proof.
  unfold Step, run_stage, convert_mp4_to_wav. run; ran_done.
Qed.

Lemma get_youtube_transcript_ran E lang url st :
  exists r st' mid lines, Step E lang F_transcript url st r st' mid lines.
Proof.
  unfold Step, run_stage, get_youtube_transcript. run; ran_done.
Qed.

Lemma download_youtube_audio_as_mp3_ran E lang url st :
  exists r st' mid lines, Step E lang F_download url st r st' mid lines.
Proof.
  unfold Step, run_stage, download_youtube_audio_as_mp3, os_remove.
  run; try ran_done.
  eexists _, _, _, _; split; [reflexivity|].
  apply Ran_intro; cbn;
    [ f_equal; rewrite <- ?app_assoc; reflexivity | reflexivity
    | rewrite <- ?app_assoc; reflexivity | reflexivity | discriminate | | ].
  - intros q Hq. destruct (decide (q = a1)) as [-> | Hne]; [right | left].
    + cbn. tauto.
    + set_solver.
  - intros q [Hq | [Hq | [Hq | []]]]; try discriminate. injection Hq as ->.
    split; [reflexivity|]. now exists a0.
Qed.

Lemma within_conversion f mid :
  f = F_mp3_to_wav \/ f = F_mp4_to_wav ->
  forallb (within f) mid = true ->
  forallb (within F_audio_to_text) mid = true.
Proof.
  intros Hf H. rewrite forallb_forall in *. intros e He. specialize (H e He).
  destruct Hf as [-> | ->]; destruct e as [[] ?|[] ?| |]; cbn in *; congruence.
Qed.

(** What is left to show about the transcription stage once the nested
    conversion [HR] has run; the stage itself adds no event. *)
Ltac ran_nested HR :=
  eexists _, _, _, _; split; [reflexivity|];
  apply Ran_intro; cbn;
  [ f_equal; rewrite (ran_trace _ _ _ _ _ _ _ HR); cbn;
    rewrite <- ?app_assoc; reflexivity
  | unfold span; cbn;
    rewrite forallb_app;
    first [ rewrite (within_conversion _ _ (or_introl eq_refl) (ran_within _ _ _ _ _ _ _ HR))
          | rewrite (within_conversion _ _ (or_intror eq_refl) (ran_within _ _ _ _ _ _ _ HR)) ];
    reflexivity
  | rewrite (ran_stdout _ _ _ _ _ _ _ HR); cbn; rewrite <- ?app_assoc;
    first [reflexivity | symmetry; apply app_nil_r]
  | rewrite ?forallb_app, (ran_console _ _ _ _ _ _ _ HR); reflexivity
  | let Hr := fresh in let Hl := fresh in
    intros Hr; first [discriminate Hr
                     | intros Hl; apply app_eq_nil in Hl as [_ Hl]; discriminate Hl]
  | let q := fresh in let Hq := fresh in
    intros q Hq; left;
    destruct (ran_files _ _ _ _ _ _ _ HR q Hq) as [Hq' | Hq']; [exact Hq'|];
    apply (ran_removed _ _ _ _ _ _ _ HR) in Hq' as [Hq' _]; discriminate Hq'
  | let q := fresh in let Hq := fresh in
    unfold span; intros q [Hq | Hq]; [discriminate Hq|];
    apply in_app_or in Hq as [Hq | [Hq | []]]; [|discriminate Hq];
    apply (ran_removed _ _ _ _ _ _ _ HR) in Hq as [Hq _]; discriminate Hq ].

Lemma convert_audio_to_text_ran E lang p st :
  exists r st' mid lines, Step E lang F_audio_to_text p st r st' mid lines.
Proof.
  unfold Step, run_stage, convert_audio_to_text. unfold_m. cbn.
  destruct (PyStr.endswith p ".wav"); cbn.
  - unfold get_audio_length. run; ran_done.
  - destruct (PyStr.endswith p ".mp3").
    + destruct (convert_mp3_to_wav_ran E lang p (entered F_audio_to_text p st))
        as (r1 & st1 & mid1 & l1 & Hrun & HR).
      unfold run_stage, entered in Hrun. rewrite Hrun.
      unfold get_audio_length. run; ran_nested HR.
    + destruct (PyStr.endswith p ".mp4").
      * destruct (convert_mp4_to_wav_ran E lang p (entered F_audio_to_text p st))
          as (r1 & st1 & mid1 & l1 & Hrun & HR).
        unfold run_stage, entered in Hrun. rewrite Hrun.
        unfold get_audio_length. run; ran_nested HR.
      * run; ran_done.
Qed.

Lemma stage_ran E lang f arg st :
  exists r st' mid lines, Step E lang f arg st r st' mid lines.
Proof.
  destruct f.
  - apply download_youtube_audio_as_mp3_ran.
  - apply convert_mp3_to_wav_ran.
  - apply convert_mp4_to_wav_ran.
  - apply convert_audio_to_text_ran.
  - apply get_youtube_transcript_ran.
Qed.

(** ** The orchestrator *)

Lemma print_text_run text st : print_text text st = (Ret tt, output text st).
Proof. destruct text; reflexivity. Qed.

(** Lines 174-178 and 185-186, from the state [st0] the first half of the
    URL branch left without a text ([Hnt]). *)
Ltac download_phase E args st0 Hnt :=
  let r1 := fresh "r" in let st1 := fresh "st" in let mid1 := fresh "mid" in
  let l1 := fresh "l" in let Hs1 := fresh "Hs" in let Hrun1 := fresh "Hrun" in
  let text := fresh "text" in let st2 := fresh "st" in let mid2 := fresh "mid" in
  let l2 := fresh "l" in let Hs2 := fresh "Hs" in let Hrun2 := fresh "Hrun" in
  let audio_file := fresh "audio_file" in
  destruct (stage_ran E (language args) F_download (source args) st0)
    as (r1 & st1 & mid1 & l1 & Hs1);
  pose proof Hs1 as [Hrun1 _]; cbn in Hrun1; rewrite Hrun1;
  destruct r1 as [audio_file|];
  [ destruct (stage_ran E (language args) F_audio_to_text audio_file st1)
      as (text & st2 & mid2 & l2 & Hs2);
    pose proof Hs2 as [Hrun2 _]; cbn in Hrun2; rewrite Hrun2, print_text_run;
    do 3 eexists; split; [reflexivity|]; eapply MR_download; eassumption
  | do 3 eexists; split; [reflexivity|]; eapply MR_download_failed; eassumption ].

(** Every run of [main] returns and follows one of the paths of [MainRun]. *)
Lemma main_run E args st :
  exists st' evs lines,
    main E args st = (Ret tt, st') /\ MainRun E args st st' evs lines.
Proof.
  unfold main. unfold_m. cbn. case_bool_decide as Hfile.
  - destruct (PyStr.endswith (source args) ".mp4") eqn:Hmp4.
    + destruct (stage_ran E (language args) F_mp4_to_wav (source args) st)
        as (r1 & st1 & mid1 & l1 & Hs1).
      pose proof Hs1 as [Hrun1 _]. cbn in Hrun1. rewrite Hrun1.
      destruct r1 as [audio_file|].
      * destruct (stage_ran E (language args) F_audio_to_text audio_file st1)
          as (text & st2 & mid2 & l2 & Hs2).
        pose proof Hs2 as [Hrun2 _]. cbn in Hrun2. rewrite Hrun2, print_text_run.
        do 3 eexists. split; [reflexivity|]. eapply MR_file_mp4; eassumption.
      * do 3 eexists. split; [reflexivity|]. eapply MR_file_mp4_failed; eassumption.
    + destruct (stage_ran E (language args) F_audio_to_text (source args) st)
        as (text & st2 & mid2 & l2 & Hs2).
      pose proof Hs2 as [Hrun2 _]. cbn in Hrun2. rewrite Hrun2, print_text_run.
      do 3 eexists. split; [reflexivity|]. eapply MR_file; eassumption.
  - destruct (is_valid_youtube_url (source args)) eqn:Hurl.
    + destruct (ignore_transcript args) eqn:Hig.
      * assert (Hnt : NoText E args st st [] []) by (left; tauto).
        download_phase E args st Hnt.
      * destruct (stage_ran E (language args) F_transcript (source args) st)
          as (r0 & st0 & mid0 & l0 & Hs0).
        pose proof Hs0 as [Hrun0 _]. cbn in Hrun0. rewrite Hrun0.
        destruct r0 as [t|].
        -- do 3 eexists. split; [reflexivity|]. eapply MR_transcript; eassumption.
        -- assert (Hnt : NoText E args st st0 (span F_transcript (source args) mid0 None) l0).
           { right. split; [assumption|]. exists mid0. now split. }
           download_phase E args st0 Hnt.
    + do 3 eexists. split; [reflexivity|]. now apply MR_invalid.
Qed.

(** ** Events of a run *)

Lemma in_span e f arg mid r :
  In e (span f arg mid r) <-> e = Call f arg \/ In e mid \/ e = Return f r.
Proof.
  unfold span. cbn. rewrite in_app_iff. cbn. intuition congruence.
Qed.

(** A stage event inside a span is of the stage or of one of its callees. *)
Lemma span_stage e g f arg mid r :
  forallb (within f) mid = true ->
  In e (span f arg mid r) -> stage_of e = Some g ->
  g = f \/ In g (callees f).
Proof.
  intros Hw He Hg. apply in_span in He as [-> | [He | ->]].
  - left. cbn in Hg. congruence.
  - right. rewrite forallb_forall in Hw. specialize (Hw e He).
    destruct e as [h a | h a | |]; cbn in Hg; try discriminate;
      injection Hg as ->; cbn in Hw;
      destruct f; cbn in Hw; try discriminate;
      destruct g; cbn in *; try discriminate; tauto.
  - left. cbn in Hg. congruence.
Qed.

Lemma span_return g r' f arg mid r :
  forallb (within f) mid = true ->
  In (Return g r') (span f arg mid r) ->
  (g = f /\ r' = r) \/ In g (callees f).
Proof.
  intros Hw He. apply in_span in He as [He | [He | He]]; [discriminate | |].
  - right. assert (H : In (Return g r') (span f arg mid r)) by (apply in_span; tauto).
    destruct (span_stage _ g _ _ _ _ Hw H eq_refl) as [-> | Hg]; [|exact Hg].
    rewrite forallb_forall in Hw. specialize (Hw _ He). cbn in Hw.
    destruct f; discriminate.
  - left. injection He as -> ->. now split.
Qed.

Lemma span_removed q f arg st r st' mid lines :
  Ran f arg st r st' mid lines ->
  In (Removed q) (span f arg mid r) ->
  f = F_download /\
  exists vid, mid = [Written q; Written (vid +:+ ".mp3"); Removed q] /\
              r = Some (vid +:+ ".mp3").
Proof.
  intros HR He. apply in_span in He as [He | [He | He]]; try discriminate.
  now apply (ran_removed _ _ _ _ _ _ _ HR).
Qed.

Lemma called_span_self f arg mid r : called f (span f arg mid r).
Proof. exists arg. apply in_span. now left. Qed.

Lemma called_span g f arg mid r :
  forallb (within f) mid = true ->
  called g (span f arg mid r) -> g = f \/ In g (callees f).
Proof. intros Hw [a Ha]. exact (span_stage _ g _ _ _ _ Hw Ha eq_refl). Qed.

Lemma called_app g evs1 evs2 :
  called g (evs1 ++ evs2) <-> called g evs1 \/ called g evs2.
Proof.
  unfold called. split.
  - intros [a Ha]. apply in_app_iff in Ha as [Ha | Ha]; eauto.
  - intros [[a Ha] | [a Ha]]; exists a; apply in_app_iff; tauto.
Qed.

Lemma called_nil g : ~ called g [].
Proof. intros [a []]. Qed.

(** A run of [main] extends the history and the console. *)
Lemma NoText_grows E args st st0 evs0 lines0 :
  NoText E args st st0 evs0 lines0 ->
  trace st0 = trace st ++ evs0 /\ stdout st0 = stdout st ++ lines0 /\
  (forall p, p ∈ files st -> p ∈ files st0) /\
  (forall q, ~ In (Removed q) evs0) /\
  forallb is_console_message lines0 = true.
Proof.
  intros [(_ & -> & -> & ->) | (_ & mid & [_ HR] & ->)].
  - rewrite !app_nil_r. repeat split; auto.
  - repeat split.
    + apply (ran_trace _ _ _ _ _ _ _ HR).
    + apply (ran_stdout _ _ _ _ _ _ _ HR).
    + intros p Hp. destruct (ran_files _ _ _ _ _ _ _ HR p Hp) as [H | H]; [exact H|].
      apply (ran_removed _ _ _ _ _ _ _ HR) in H as [H _]. discriminate.
    + intros q Hq. apply (span_removed _ _ _ _ _ _ _ _ HR) in Hq as [H _]. discriminate.
    + apply (ran_console _ _ _ _ _ _ _ HR).
Qed.

Lemma output_grows text st :
  trace (output text st) = trace st /\
  stdout (output text st) = stdout st ++ text_lines text /\
  files (output text st) = files st.
Proof. destruct text; cbn; rewrite ?app_nil_r; auto. Qed.

Lemma MainRun_grows E args st st' evs lines :
  MainRun E args st st' evs lines ->
  trace st' = trace st ++ evs /\ stdout st' = stdout st ++ lines.
Proof.
  intros H; destruct H;
    repeat match goal with
    | H : Step _ _ _ _ _ _ _ _ _ |- _ =>
        let HR := fresh "HR" in
        destruct H as [_ HR];
        pose proof (ran_trace _ _ _ _ _ _ _ HR);
        pose proof (ran_stdout _ _ _ _ _ _ _ HR); clear HR
    | H : NoText _ _ _ _ _ _ |- _ =>
        apply NoText_grows in H as (? & ? & _)
    end;
    rewrite ?(proj1 (output_grows _ _)), ?(proj1 (proj2 (output_grows _ _)));
    cbn [printed trace stdout];
    repeat match goal with H : trace _ = _ |- _ => rewrite H; clear H end;
    repeat match goal with H : stdout _ = _ |- _ => rewrite H; clear H end;
    rewrite <- ?app_assoc, ?app_nil_r; split; reflexivity.
Qed.

(** Splits [H : In e evs] along the spans that make up [evs]. *)
Ltac event_cases H :=
  lazymatch type of H with
  | In _ (_ ++ _) => apply in_app_or in H as [H | H]; event_cases H
  | In _ [] => destruct H
  | _ => idtac
  end.

(** Names what each step of a path of [main] is known to have left. *)
Ltac open_steps :=
  repeat match goal with
  | H : Step _ _ _ _ _ _ _ _ _ |- _ =>
      let Hrun := fresh "Hrun" in let HR := fresh "HR" in
      let Hw := fresh "Hw" in
      destruct H as [Hrun HR]; pose proof (ran_within _ _ _ _ _ _ _ HR) as Hw;
      cbn [run_stage] in Hrun
  end.

(** Closes a goal with [H : In e (span f ...)] when the stage of [e] is
    neither [f] nor one of its callees. *)
Ltac off_stage H :=
  eapply span_stage in H; [| eassumption | reflexivity];
  cbn in H; intuition discriminate.

Ltac open_notext H :=
  destruct H as [(? & ? & ? & ?) | (? & ? & ? & ?)]; subst; open_steps.

(** C4: a source that names an existing file takes the local-file branch,
    whether or not it also matches the URL pattern: the run starts with the
    mp4 conversion (for a name ending in .mp4) or with the transcription
    stage, and neither the transcript fetch nor the download is entered.
    Conversely the URL branch is entered only for a source that is not an
    existing file. *)
Theorem C4_existing_file_is_local (E : Env) (args : Args) (st : State) :
  exists st' evs,
    main E args st = (Ret tt, st') /\ trace st' = trace st ++ evs /\
    (source args ∈ files st ->
       hd_error evs
       = Some (Call (if PyStr.endswith (source args) ".mp4"
                     then F_mp4_to_wav else F_audio_to_text) (source args)) /\
       ~ called F_transcript evs /\ ~ called F_download evs) /\
    (called F_transcript evs \/ called F_download evs -> source args ∉ files st).
Proof.
  destruct (main_run E args st) as (st' & evs & lines & Hmain & HM).
  exists st', evs. split; [exact Hmain|].
  split; [apply (MainRun_grows _ _ _ _ _ _ HM)|].
  destruct HM; open_steps;
    try (split; [intros Hf; contradiction | intros _; assumption]).
  - split; [|intros [[a Ha] | [a Ha]]; off_stage Ha].
    intros _. rewrite H0. split; [reflexivity|].
    split; intros [a Ha]; off_stage Ha.
  - split; [|intros [[a Ha] | [a Ha]]; event_cases Ha; off_stage Ha].
    intros _. rewrite H0. split; [reflexivity|].
    split; intros [a Ha]; event_cases Ha; off_stage Ha.
  - split; [|intros [[a Ha] | [a Ha]]; off_stage Ha].
    intros _. rewrite H0. split; [reflexivity|].
    split; intros [a Ha]; off_stage Ha.
Qed.

(** Refutes [H : In e evs] or [H : called f evs] when no span of [evs]
    holds such an event. *)
Ltac ev_false H :=
  lazymatch type of H with
  | called _ _ => let a := fresh "a" in destruct H as [a H]
  | _ => idtac
  end;
  event_cases H;
  first [ off_stage H
        | apply span_return in H as [[_ H] | []]; [discriminate H | assumption] ].

(** Finds an event in the spans of a run. *)
Ltac ev_true :=
  rewrite ?called_app, ?in_app_iff, ?in_span;
  intuition (eauto using called_span_self).

(** C2: for a source that is a valid YouTube URL (and not an existing
    file), the transcript fetch is entered exactly when ignore_transcript
    is false; the download is entered exactly when no transcript text was
    obtained, that is when the fetch was skipped or returned None; and the
    transcription stage follows exactly when the download returned a
    file. *)
Theorem C2_fetch_then_fallback (E : Env) (args : Args) (st : State) :
  source args ∉ files st ->
  is_valid_youtube_url (source args) = true ->
  exists st' evs,
    main E args st = (Ret tt, st') /\ trace st' = trace st ++ evs /\
    (called F_transcript evs <-> ignore_transcript args = false) /\
    (In (Return F_transcript None) evs <->
       ignore_transcript args = false /\
       fst (get_youtube_transcript E (source args) (language args) st) = Ret None) /\
    (called F_download evs <->
       ignore_transcript args = true \/ In (Return F_transcript None) evs) /\
    (called F_audio_to_text evs <->
       exists audio_file, In (Return F_download (Some audio_file)) evs).
Proof.
  intros Hfile Hurl.
  destruct (main_run E args st) as (st' & evs & lines & Hmain & HM).
  exists st', evs. split; [exact Hmain|].
  split; [apply (MainRun_grows _ _ _ _ _ _ HM)|].
  destruct HM as [ | | | | t st1 mid1 l1 _ _ Hig Hs1
                 | st0 evs0 l0 st1 mid1 l1 _ _ Hnt Hs1
                 | st0 evs0 l0 audio_file st1 mid1 l1 text st2 mid2 l2 _ _ Hnt Hs1 Hs2 ];
    try contradiction; try congruence; open_steps.
  - (* the fetch returned a text *)
    split; [split; [intros _; exact Hig | intros _; ev_true]|].
    split; [split; [intros Hx; ev_false Hx | intros [_ Hx]; rewrite Hrun in Hx; discriminate Hx]|].
    split; [split; [intros Hx; ev_false Hx | intros [Hx | Hx]; [congruence | ev_false Hx]]|].
    split; [intros Hx; ev_false Hx | intros [a Hx]; ev_false Hx].
  - (* no text, the download failed *)
    open_notext Hnt.
    + split; [split; [intros Hx; ev_false Hx | congruence]|].
      split; [split; [intros Hx; ev_false Hx | intros [Hx _]; congruence]|].
      split; [split; [intros _; now left | intros _; ev_true]|].
      split; [intros Hx; ev_false Hx | intros [a Hx]; ev_false Hx].
    + split; [split; [intros _; assumption | intros _; ev_true]|].
      split; [split; [intros _; split; [assumption | now rewrite Hrun0]
                     | intros _; ev_true]|].
      split; [split; [intros _; right; ev_true | intros _; ev_true]|].
      split; [intros Hx; ev_false Hx | intros [a Hx]; ev_false Hx].
  - (* no text, the download gave a file *)
    open_notext Hnt.
    + split; [split; [intros Hx; ev_false Hx | congruence]|].
      split; [split; [intros Hx; ev_false Hx | intros [Hx _]; congruence]|].
      split; [split; [intros _; now left | intros _; ev_true]|].
      split; [intros _; exists audio_file; ev_true | intros _; ev_true].
    + split; [split; [intros _; assumption | intros _; ev_true]|].
      split; [split; [intros _; split; [assumption | now rewrite Hrun1]
                     | intros _; ev_true]|].
      split; [split; [intros _; right; ev_true | intros _; ev_true]|].
      split; [intros _; exists audio_file; ev_true | intros _; ev_true].
Qed.

(** ** Files *)



(** Follows the file [p] through the steps of a path of [main]. *)
Ltac step_files p :=
  repeat match goal with
  | HR : Ran _ _ ?s _ ?s' _ _, Hp : p ∈ files ?s |- _ =>
      lazymatch goal with
      | _ : p ∈ files s' |- _ => fail
      | _ : In (Removed p) _ |- _ => fail
      | _ => destruct (ran_files _ _ _ _ _ _ _ HR p Hp) as [?Hp | ?Hrm]
      end
  end.

Lemma MainRun_files E args st st' evs lines :
  MainRun E args st st' evs lines ->
  forall p, p ∈ files st -> p ∈ files st' \/ In (Removed p) evs.
Proof.
  intros HM p Hp.
  destruct HM as [ | st1 mid1 l1 _ _ Hs1
                 | audio_file st1 mid1 l1 text st2 mid2 l2 _ _ Hs1 Hs2
                 | text st2 mid2 l2 _ _ Hs2
                 | t st1 mid1 l1 _ _ _ Hs1
                 | st0 evs0 l0 st1 mid1 l1 _ _ Hnt Hs1
                 | st0 evs0 l0 audio_file st1 mid1 l1 text st2 mid2 l2 _ _ Hnt Hs1 Hs2 ];
    rewrite ?(proj2 (proj2 (output_grows _ _))); cbn [printed files];
    try (apply NoText_grows in Hnt as (_ & _ & Hnt & _); apply Hnt in Hp);
    open_steps; step_files p;
    first [left; assumption | right; ev_true].
Qed.



(** ** Failures *)

Lemma MainRun_console E args st st' evs lines :
  MainRun E args st st' evs lines ->
  (forall f r, In (Return f r) evs ->
     f = F_transcript \/ f = F_audio_to_text -> r = None) ->
  forallb is_console_message lines = true.
Proof.
  intros HM Hfail.
  destruct HM as [ | st1 mid1 l1 _ _ Hs1
                 | audio_file st1 mid1 l1 text st2 mid2 l2 _ _ Hs1 Hs2
                 | text st2 mid2 l2 _ _ Hs2
                 | t st1 mid1 l1 _ _ _ Hs1
                 | st0 evs0 l0 st1 mid1 l1 _ _ Hnt Hs1
                 | st0 evs0 l0 audio_file st1 mid1 l1 text st2 mid2 l2 _ _ Hnt Hs1 Hs2 ];
    try (apply NoText_grows in Hnt as (_ & _ & _ & _ & Hnt));
    try (assert (text = None) as -> by (eapply Hfail; [ev_true | tauto]));
    try (assert (Some t = None) as Hx by (eapply Hfail; [ev_true | tauto]);
         discriminate Hx);
    repeat match goal with
    | H : Step _ _ _ _ _ _ _ _ _ |- _ =>
        let HR := fresh "HR" in
        destruct H as [_ HR]; pose proof (ran_console _ _ _ _ _ _ _ HR); clear HR
    end;
    rewrite ?forallb_app; cbn [text_lines];
    repeat match goal with H : forallb _ _ = true |- _ => rewrite H; clear H end;
    reflexivity.
Qed.

Lemma stage_handled (f : Stage) (arg : string) (body : M (option string))
    (message : exn -> string) :
  handled f arg body message
    (traced f arg (try_except body (fun e => print (message e);; mret None))).
Proof.
  intros st. unfold traced, try_except, log, print, mbind, M_bind, mret, M_ret,
    entered, returned, printed. cbn.
  destruct (body _) as [[r | e] st1]; reflexivity.
Qed.

Lemma get_youtube_transcript_handled E url lang :
  handled_bound F_transcript url
    (get_youtube_transcript_video_id E url)
    (get_youtube_transcript_text E lang)
    (fun e => "Error retrieving transcript: " +:+ exn_str e)
    transcript_failure_line
    (get_youtube_transcript E url lang).
Proof.
  intros st. unfold get_youtube_transcript, get_youtube_transcript_video_id.
  unfold traced, try_except_bound, lib_call, log, print, raise,
    mbind, M_bind, mret, M_ret, entered, returned, printed. cbn.
  destruct (pytube_YouTube E _ url) as [msg | vid]; [reflexivity|].
  destruct (get_youtube_transcript_text E lang vid _) as [[r | e] st2];
    [reflexivity|]. destruct e; reflexivity.
Qed.

(** C8: no stage lets an exception escape.  Each of the five is its [try]
    body with its handler: a value of the body is returned as it is, and
    an exception raised inside the body is turned into the message of the
    stage, made of the text of the exception, and the result None; for the
    transcript fetch the message of TranscriptsDisabled and
    NoTranscriptFound names the video id instead.  So every stage returns
    on every input, what it prints are console messages (its own and those
    of MoviePy, never the text), and when it returns None it has printed
    at least one.  [main] in turn returns on every input, with exit status
    0; and when no stage that produces text returned one, everything
    [main] printed is a console message: no transcript output. *)
Theorem C8_failures_are_handled (E : Env) :
  (forall url,
      handled F_download url (download_youtube_audio_as_mp3_body E url)
        (fun e => "Error downloading YouTube video: " +:+ exn_str e)
        (download_youtube_audio_as_mp3 E url)) /\
  (forall mp3_path,
      handled F_mp3_to_wav mp3_path (convert_mp3_to_wav_body E mp3_path)
        (fun e => "Error converting MP3 to WAV: " +:+ exn_str e)
        (convert_mp3_to_wav E mp3_path)) /\
  (forall mp4_path,
      handled F_mp4_to_wav mp4_path (convert_mp4_to_wav_body E mp4_path)
        (fun e => "Error converting MP4 to WAV: " +:+ exn_str e)
        (convert_mp4_to_wav E mp4_path)) /\
  (forall audio_path language,
      handled F_audio_to_text audio_path
        (convert_audio_to_text_body E audio_path language)
        (fun e => "Error transcribing audio: " +:+ exn_str e)
        (convert_audio_to_text E audio_path language)) /\
  (forall url language,
      handled_bound F_transcript url
        (get_youtube_transcript_video_id E url)
        (get_youtube_transcript_text E language)
        (fun e => "Error retrieving transcript: " +:+ exn_str e)
        transcript_failure_line
        (get_youtube_transcript E url language)) /\
  (forall lang f arg st, exists r st' lines,
      run_stage E lang f arg st = (Ret r, st') /\
      stdout st' = stdout st ++ lines /\
      forallb is_console_message lines = true /\
      (r = None -> lines <> [])) /\
  (forall args st, exists st' evs lines,
      main E args st = (Ret tt, st') /\ exit_status E args st = 0 /\
      trace st' = trace st ++ evs /\ stdout st' = stdout st ++ lines /\
      ((forall f r, In (Return f r) evs ->
          f = F_transcript \/ f = F_audio_to_text -> r = None) ->
       forallb is_console_message lines = true)).
Proof.
  split; [intros url; apply stage_handled|].
  split; [intros p; apply stage_handled|].
  split; [intros p; apply stage_handled|].
  split; [intros p lang; apply stage_handled|].
  split; [intros url lang; apply get_youtube_transcript_handled|].
  split.
  - intros lang f arg st.
    destruct (stage_ran E lang f arg st) as (r & st' & mid & lines & Hrun & HR).
    exists r, st', lines. split; [exact Hrun|].
    split; [apply (ran_stdout _ _ _ _ _ _ _ HR)|].
    split; [apply (ran_console _ _ _ _ _ _ _ HR) | apply (ran_message _ _ _ _ _ _ _ HR)].
  - intros args st.
    destruct (main_run E args st) as (st' & evs & lines & Hmain & HM).
    exists st', evs, lines. split; [exact Hmain|].
    split; [unfold exit_status; now rewrite Hmain|].
    destruct (MainRun_grows _ _ _ _ _ _ HM) as [Ht Hs].
    split; [exact Ht|]. split; [exact Hs|].
    apply (MainRun_console _ _ _ _ _ _ HM).
Qed.

(** ** The transcript path *)

Lemma get_youtube_transcript_available E url lang vid entries st :
  transcript_available E url lang vid entries ->
  get_youtube_transcript E url lang st
  = (Ret (Some (PyStr.join " " (map text entries))),
     returned F_transcript (Some (PyStr.join " " (map text entries)))
       (printed ("Retrieving transcript for video: " +:+ vid)
          (entered F_transcript url st))).
Proof.
  intros (Hid & Hlist & Hfind & Hfetch).
  unfold get_youtube_transcript. unfold_m. cbn.
  rewrite Hid, Hlist, Hfind. cbn. rewrite Hfetch. reflexivity.
Qed.

Lemma main_transcript E args st vid entries :
  source args ∉ files st ->
  is_valid_youtube_url (source args) = true ->
  ignore_transcript args = false ->
  transcript_available E (source args) (language args) vid entries ->
  main E args st
  = (Ret tt,
     printed (PyStr.join " " (map text entries))
       (returned F_transcript (Some (PyStr.join " " (map text entries)))
          (printed ("Retrieving transcript for video: " +:+ vid)
             (entered F_transcript (source args) st)))).
Proof.
  intros Hfile Hurl Hig Hav. unfold main. unfold_m. cbn.
  rewrite bool_decide_eq_false_2 by exact Hfile. rewrite Hurl, Hig.
  rewrite (get_youtube_transcript_available _ _ _ _ _ _ Hav). reflexivity.
Qed.

Lemma not_called_transcript_span g url r :
  g <> F_transcript -> ~ called g [Call F_transcript url; Return F_transcript r].
Proof.
  intros Hg [a [Ha | [Ha | []]]]; [injection Ha as Ha _; congruence | discriminate Ha].
Qed.

(** [join] is the concatenation with separators of the standard library. *)
Lemma join_concat (sep : string) (l : list string) :
  PyStr.join sep l = String.concat sep l.
Proof.
  induction l as [|x [|y l] IH]; [reflexivity | reflexivity |].
  change (PyStr.join sep (x :: y :: l)) with (x +:+ sep +:+ PyStr.join sep (y :: l)).
  now rewrite IH.
Qed.

(** C1: for a valid YouTube URL (not an existing file) whose transcript
    is available in the requested language, with ignore_transcript false,
    [main] enters the transcript fetch only: no download, no file written.
    It prints the console message of the fetch and then, as its last line,
    the texts of the caption entries in their order, one space between
    each two. *)
Theorem C1_transcript_is_the_output (E : Env) (args : Args) (st : State)
    (vid : string) (entries : list Entry) :
  source args ∉ files st ->
  is_valid_youtube_url (source args) = true ->
  ignore_transcript args = false ->
  transcript_available E (source args) (language args) vid entries ->
  exists st' evs,
    main E args st = (Ret tt, st') /\
    trace st' = trace st ++ evs /\ ~ called F_download evs /\
    files st' = files st /\
    stdout st' = stdout st ++ ["Retrieving transcript for video: " +:+ vid;
                               String.concat " " (map text entries)].
Proof.
  intros Hfile Hurl Hig Hav.
  eexists _, _. split; [apply (main_transcript _ _ _ _ _ Hfile Hurl Hig Hav)|].
  cbn. rewrite <- !app_assoc. split; [reflexivity|].
  split; [apply not_called_transcript_span; discriminate|].
  split; [reflexivity|]. now rewrite join_concat.
Qed.

(** C9: when the transcript exists in the requested language but has no
    caption entry, the fetch returns the empty string, not None; [main]
    takes it as a success: it prints the empty text and enters neither
    the download nor the transcription stage. *)
Theorem C9_empty_transcript_is_success (E : Env) (args : Args) (st : State)
    (vid : string) :
  source args ∉ files st ->
  is_valid_youtube_url (source args) = true ->
  ignore_transcript args = false ->
  transcript_available E (source args) (language args) vid [] ->
  fst (get_youtube_transcript E (source args) (language args) st) = Ret (Some "") /\
  exists st' evs,
    main E args st = (Ret tt, st') /\
    trace st' = trace st ++ evs /\
    ~ called F_download evs /\ ~ called F_audio_to_text evs /\
    stdout st' = stdout st ++ ["Retrieving transcript for video: " +:+ vid; ""].
Proof.
  intros Hfile Hurl Hig Hav. split.
  - now rewrite (get_youtube_transcript_available _ _ _ _ _ _ Hav).
  - eexists _, _. split; [apply (main_transcript _ _ _ _ _ Hfile Hurl Hig Hav)|].
    cbn. rewrite <- !app_assoc. split; [reflexivity|].
    split; [apply not_called_transcript_span; discriminate|].
    split; [apply not_called_transcript_span; discriminate | reflexivity].
Qed.

(** ** The transcription stage on bad input *)

(** C7: on a path that ends in none of .wav, .mp3, .mp4 the transcription
    stage calls no library, prints its message and returns None; nothing
    is raised. *)
Theorem C7_unsupported_extension (E : Env) (audio_path language : string)
    (st : State) :
  PyStr.endswith audio_path ".wav" = false ->
  PyStr.endswith audio_path ".mp3" = false ->
  PyStr.endswith audio_path ".mp4" = false ->
  convert_audio_to_text E audio_path language st
  = (Ret None,
     returned F_audio_to_text None
       (printed "Error transcribing audio: Unsupported file format. Only MP3 and MP4 are supported."
          (entered F_audio_to_text audio_path st))).
Proof.
  intros Hwav Hmp3 Hmp4. unfold convert_audio_to_text. unfold_m. cbn.
  rewrite Hwav, Hmp3, Hmp4. reflexivity.
Qed.

Lemma endswith_mp3_not_wav p :
  PyStr.endswith p ".mp3" = true -> PyStr.endswith p ".wav" = false.
Proof.
  intros H. destruct (PyStr.endswith p ".wav") eqn:Hw; [|reflexivity].
  discriminate (PyStrFacts.endswith_unique _ _ _ H Hw eq_refl).
Qed.

Lemma endswith_mp4_not_wav p :
  PyStr.endswith p ".mp4" = true -> PyStr.endswith p ".wav" = false.
Proof.
  intros H. destruct (PyStr.endswith p ".wav") eqn:Hw; [|reflexivity].
  discriminate (PyStrFacts.endswith_unique _ _ _ H Hw eq_refl).
Qed.

Lemma endswith_mp4_not_mp3 p :
  PyStr.endswith p ".mp4" = true -> PyStr.endswith p ".mp3" = false.
Proof.
  intros H. destruct (PyStr.endswith p ".mp3") eqn:Hw; [|reflexivity].
  discriminate (PyStrFacts.endswith_unique _ _ _ H Hw eq_refl).
Qed.

(** C10: when the path ends in .mp3 or .mp4 and the nested conversion
    returns None, the transcription stage goes on with None for a path;
    reading the audio length raises, the handler of the stage catches it,
    prints its message and the stage returns None. *)
Theorem C10_failed_conversion_is_caught (E : Env) (audio_path language : string)
    (st st1 : State) :
  (PyStr.endswith audio_path ".mp3" = true /\
   convert_mp3_to_wav E audio_path (entered F_audio_to_text audio_path st)
   = (Ret None, st1)) \/
  (PyStr.endswith audio_path ".mp4" = true /\
   convert_mp4_to_wav E audio_path (entered F_audio_to_text audio_path st)
   = (Ret None, st1)) ->
  exists msg,
    convert_audio_to_text E audio_path language st
    = (Ret None,
       returned F_audio_to_text None
         (printed ("Error transcribing audio: " +:+ msg) st1)).
Proof.
  intros [[Hext Hconv] | [Hext Hconv]]; eexists;
    unfold convert_audio_to_text; unfold_m; cbn; unfold entered in Hconv.
  - rewrite (endswith_mp3_not_wav _ Hext), Hext. cbn. rewrite Hconv. reflexivity.
  - rewrite (endswith_mp4_not_wav _ Hext), (endswith_mp4_not_mp3 _ Hext), Hext. cbn.
    rewrite Hconv. reflexivity.
Qed.

(** ** The URL pattern *)

(** C3 as stated fails: [youtube/x] is accepted though its host is neither
    [www.youtube.com] nor [youtu.be], and [youtu.be/] followed by a
    newline is rejected though a character follows the [/]. *)
Lemma C3_counterexample :
  (is_valid_youtube_url "youtube/x" = true /\ ~ spec_url_pattern "youtube/x") /\
  (spec_url_pattern ("youtu.be/" +:+ String PyStr.newline "") /\
   is_valid_youtube_url ("youtu.be/" +:+ String PyStr.newline "") = false).
Proof.
  split; split.
  - reflexivity.
  - intros (scheme & host & rest & Hs & Hh & _ & Heq).
    cbn [In] in Hs, Hh.
    destruct Hs as [<- | [<- | [<- | []]]];
      destruct Hh as [<- | [<- | []]]; cbv in Heq; discriminate Heq.
  - exists "", "youtu.be", (String PyStr.newline "").
    cbn [In]. repeat split; [tauto | tauto | discriminate].
  - reflexivity.
Qed.

(** C3 (amended): a string is accepted exactly when it is an optional
    [http://] or [https://], then [www.youtube.com], [youtu.be] or
    [youtube], then [/] and one or more characters that are not newlines,
    then nothing or one final newline.  Query parameters and the absence
    of a scheme make no difference. *)
Theorem C3_accepts_exactly_the_code_pattern (s : string) :
  is_valid_youtube_url s = true <-> code_url_pattern s.
Proof. apply UrlFacts.is_valid_youtube_url_spec. Qed.

(** ** The waveform path *)

Lemma replace_from_skip old new k s :
  String.length s <= k -> PyStr.replace_from old new k s = "".
Proof.
  revert k; induction s as [|c s IH]; intros k Hk; [reflexivity|].
  cbn in Hk. destruct k as [|k]; [lia|]. cbn. apply IH. lia.
Qed.

Lemma take_append (a b : string) : take (String.length a) (a +:+ b) = a.
Proof.
  induction a as [|c a IH]; [reflexivity|].
  rewrite PyStrFacts.append_cons. cbn. now rewrite IH.
Qed.

(** Where [replace] and the suffix swap agree: on a path with no dot
    before its extension, which holds one occurrence of the extension. *)
Lemma replace_swaps_suffix (base ext new : string) :
  no_dot base = true ->
  PyStr.replace (base +:+ String "." ext) (String "." ext) new = base +:+ new
  /\ with_suffix_replaced (base +:+ String "." ext) (String "." ext) new
     = Some (base +:+ new).
Proof.
  intros Hb. split.
  - unfold PyStr.replace. induction base as [|c base IH].
    + rewrite PyStrFacts.append_nil_l. cbn [PyStr.replace_from].
      replace (String "." ext) with (String "." ext +:+ "") at 1
        by apply PyStrFacts.append_nil_r.
      rewrite PyStrFacts.startswith_append.
      rewrite replace_from_skip by (cbn; lia).
      now rewrite PyStrFacts.append_nil_r.
    + cbn [no_dot] in Hb. apply andb_true_iff in Hb as [Hc Hb].
      rewrite !PyStrFacts.append_cons. cbn [PyStr.replace_from PyStr.startswith].
      apply negb_true_iff in Hc. rewrite Hc. cbn [andb]. now rewrite (IH Hb).
  - unfold with_suffix_replaced.
    assert (He : PyStr.endswith (base +:+ String "." ext) (String "." ext) = true).
    { apply PyStrFacts.endswith_iff. now exists base. }
    rewrite He, PyStrFacts.length_append.
    replace (String.length base + String.length (String "." ext)
             - String.length (String "." ext)) with (String.length base) by lia.
    now rewrite take_append.
Qed.

(** The path a conversion returns is the one [replace] computes. *)
Lemma convert_mp3_to_wav_path E mp3_path st wav_path st' :
  convert_mp3_to_wav E mp3_path st = (Ret (Some wav_path), st') ->
  wav_path = PyStr.replace mp3_path ".mp3" ".wav".
Proof.
  unfold convert_mp3_to_wav. unfold_m. cbn.
  repeat (case_match; simplify_eq; cbn in * ); congruence.
Qed.

Lemma convert_mp4_to_wav_path E mp4_path st wav_path st' :
  convert_mp4_to_wav E mp4_path st = (Ret (Some wav_path), st') ->
  wav_path = PyStr.replace mp4_path ".mp4" ".wav".
Proof.
  unfold convert_mp4_to_wav. unfold_m. cbn.
  repeat (case_match; simplify_eq; cbn in * ); congruence.
Qed.

(** C5 (the code at the failing input): on [take.mp3.mp3] the mp3
    conversion succeeds and returns [take.wav.wav], where the path with
    its suffix replaced is [take.mp3.wav]; likewise the mp4 conversion on
    [clip.mp4.mp4]. *)
Theorem C5_replace_renames_every_occurrence :
  (PyStr.endswith "take.mp3.mp3" ".mp3" = true /\
   fst (convert_mp3_to_wav env_ok "take.mp3.mp3" (state_with "take.mp3.mp3"))
   = Ret (Some "take.wav.wav") /\
   with_suffix_replaced "take.mp3.mp3" ".mp3" ".wav" = Some "take.mp3.wav") /\
  (PyStr.endswith "clip.mp4.mp4" ".mp4" = true /\
   fst (convert_mp4_to_wav env_ok "clip.mp4.mp4" (state_with "clip.mp4.mp4"))
   = Ret (Some "clip.wav.wav") /\
   with_suffix_replaced "clip.mp4.mp4" ".mp4" ".wav" = Some "clip.mp4.wav").
Proof. repeat split; vm_compute; reflexivity. Qed.

(** ** Concrete runs *)


(** C1 on the run of [url_args false] with every library call succeeding. *)
Lemma C1_witness :
  exists st' evs,
    main env_ok (url_args false) empty_state = (Ret tt, st') /\
    trace st' = trace empty_state ++ evs /\ ~ called F_download evs /\
    files st' = files empty_state /\
    stdout st' = stdout empty_state
                 ++ ["Retrieving transcript for video: dQw4w9WgXcQ";
                     "never gonna give you up"].
Proof.
  apply (C1_transcript_is_the_output env_ok (url_args false) empty_state
           "dQw4w9WgXcQ"
           [mkEntry "never gonna" 0 1500; mkEntry "give you up" 1500 1500]).
  - apply not_elem_of_empty.
  - reflexivity.
  - reflexivity.
  - repeat split.
Defined.

(** C2 on the run of [url_args true] with every library call succeeding. *)
Lemma C2_witness :
  exists st' evs,
    main env_ok (url_args true) empty_state = (Ret tt, st') /\
    trace st' = trace empty_state ++ evs /\
    (called F_transcript evs <-> ignore_transcript (url_args true) = false) /\
    (In (Return F_transcript None) evs <->
       ignore_transcript (url_args true) = false /\
       fst (get_youtube_transcript env_ok (source (url_args true))
              (language (url_args true)) empty_state) = Ret None) /\
    (called F_download evs <->
       ignore_transcript (url_args true) = true \/ In (Return F_transcript None) evs) /\
    (called F_audio_to_text evs <->
       exists audio_file, In (Return F_download (Some audio_file)) evs).
Proof.
  apply (C2_fetch_then_fallback env_ok (url_args true) empty_state).
  - apply not_elem_of_empty.
  - reflexivity.
Defined.

(** C7 on [notes.txt]. *)
Lemma C7_witness :
  convert_audio_to_text env_down "notes.txt" "ja" (state_with "notes.txt")
  = (Ret None,
     returned F_audio_to_text None
       (printed "Error transcribing audio: Unsupported file format. Only MP3 and MP4 are supported."
          (entered F_audio_to_text "notes.txt" (state_with "notes.txt")))).
Proof.
  apply (C7_unsupported_extension env_down "notes.txt" "ja" (state_with "notes.txt"));
    reflexivity.
Defined.

(** C9 on a video whose transcript has no entry. *)
Lemma C9_witness :
  fst (get_youtube_transcript env_empty_transcript (source (url_args false))
         (language (url_args false)) empty_state) = Ret (Some "") /\
  exists st' evs,
    main env_empty_transcript (url_args false) empty_state = (Ret tt, st') /\
    trace st' = trace empty_state ++ evs /\
    ~ called F_download evs /\ ~ called F_audio_to_text evs /\
    stdout st' = stdout empty_state
                 ++ ["Retrieving transcript for video: " +:+ "dQw4w9WgXcQ"; ""].
Proof.
  apply (C9_empty_transcript_is_success env_empty_transcript (url_args false) empty_state).
  - apply not_elem_of_empty.
  - reflexivity.
  - reflexivity.
  - repeat split.
Defined.

(** C10 on [talk.mp3] with every library down. *)
Lemma C10_witness :
  exists msg,
    convert_audio_to_text env_down "talk.mp3" "ja" (state_with "talk.mp3")
    = (Ret None,
       returned F_audio_to_text None
         (printed ("Error transcribing audio: " +:+ msg) talk_failed)).
Proof.
  apply (C10_failed_conversion_is_caught env_down "talk.mp3" "ja"
           (state_with "talk.mp3") talk_failed).
  left. split; reflexivity.
Defined.

(** ** Sanity checks on concrete inputs *)

Example url_with_query :
  is_valid_youtube_url "https://www.youtube.com/watch?v=dQw4w9WgXcQ&t=10" = true.
Proof. reflexivity. Qed.

Example url_without_scheme : is_valid_youtube_url "youtu.be/dQw4w9WgXcQ" = true.
Proof. reflexivity. Qed.

Example url_other_host : is_valid_youtube_url "https://vimeo.com/1234" = false.
Proof. reflexivity. Qed.

Example url_empty_path : is_valid_youtube_url "youtu.be/" = false.
Proof. reflexivity. Qed.

Example url_no_www : is_valid_youtube_url "https://youtube.com/watch?v=dQw4w9WgXcQ" = false.
Proof. reflexivity. Qed.

Example url_anchored : is_valid_youtube_url "see https://youtu.be/dQw4w9WgXcQ" = false.
Proof. reflexivity. Qed.

Example url_final_newline :
  is_valid_youtube_url ("youtu.be/a" +:+ String PyStr.newline "") = true.
Proof. reflexivity. Qed.

Example url_inner_newline :
  is_valid_youtube_url ("youtu.be/a" +:+ String PyStr.newline "b") = false.
Proof. reflexivity. Qed.

Example replace_overlap : PyStr.replace "aaa" "aa" "b" = "ba".
Proof. reflexivity. Qed.

Example endswith_empty : PyStr.endswith "" "" = true.
Proof. reflexivity. Qed.

Example endswith_case : PyStr.endswith "TALK.MP3" ".mp3" = false.
Proof. reflexivity. Qed.

Example replace_suffix : PyStr.replace "song.mp3" ".mp3" ".wav" = "song.wav".
Proof. reflexivity. Qed.

Example replace_empty_old : PyStr.replace "ab" "" "-" = "-a-b-".
Proof. reflexivity. Qed.

Example join_two : PyStr.join " " ["a"; "b"] = "a b".
Proof. reflexivity. Qed.

Example run_ok_url :
  stdout (snd (main env_ok (mkArgs "https://youtu.be/dQw4w9WgXcQ" "en" false) empty_state))
  = ["Retrieving transcript for video: dQw4w9WgXcQ"; "never gonna give you up"].
Proof. vm_compute. reflexivity. Qed.

Example run_ok_url_ignore :
  let st := snd (main env_ok (mkArgs "https://youtu.be/dQw4w9WgXcQ" "en" true) empty_state) in
  stdout st = ["MoviePy - Writing audio in dQw4w9WgXcQ.mp3"; "MoviePy - Done.";
               "hello world"] /\
  trace st = [Call F_download "https://youtu.be/dQw4w9WgXcQ";
              Written "/work/dQw4w9WgXcQ.mp4"; Written "dQw4w9WgXcQ.mp3";
              Removed "/work/dQw4w9WgXcQ.mp4";
              Return F_download (Some "dQw4w9WgXcQ.mp3");
              Call F_audio_to_text "dQw4w9WgXcQ.mp3";
              Call F_mp3_to_wav "dQw4w9WgXcQ.mp3"; Written "dQw4w9WgXcQ.wav";
              Return F_mp3_to_wav (Some "dQw4w9WgXcQ.wav");
              Return F_audio_to_text (Some "hello world")].
Proof. vm_compute. split; reflexivity. Qed.

Example run_down_url :
  stdout (snd (main env_down (mkArgs "https://youtu.be/dQw4w9WgXcQ" "en" false) empty_state))
  = ["Error retrieving transcript: regex_search: could not find match";
     "Error downloading YouTube video: regex_search: could not find match";
     "Failed to download or convert YouTube video to audio."].
Proof. vm_compute. reflexivity. Qed.

(** A file whose name looks like a URL is transcribed as a file. *)
Example run_file_named_like_url :
  is_valid_youtube_url "youtu.be/clip.wav" = true /\
  snd (main env_ok (mkArgs "youtu.be/clip.wav" "en" false) (state_with "youtu.be/clip.wav"))
  = mkState {["youtu.be/clip.wav"]} ["hello world"]
      [Call F_audio_to_text "youtu.be/clip.wav";
       Return F_audio_to_text (Some "hello world")].
Proof. split; vm_compute; reflexivity. Qed.

(** With every library down a local mp3 yields two messages and no text. *)
Example run_down_file :
  stdout (snd (main env_down (mkArgs "talk.mp3" "ja" false) (state_with "talk.mp3")))
  = ["Error converting MP3 to WAV: Decoding failed";
     "Error transcribing audio: 'NoneType' object has no attribute 'read'"].
Proof. vm_compute. reflexivity. Qed.

(** * More of the program *)

(** ** [str.replace] on an extension *)

Lemma replace_from_skip_app old new x y :
  PyStr.replace_from old new (String.length x) (x +:+ y)
  = PyStr.replace_from old new 0 y.
Proof.
  induction x as [|c x IH]; [reflexivity|].
  rewrite PyStrFacts.append_cons. cbn. exact IH.
Qed.

Lemma startswith_no_dot e e' a :
  no_dot e = true ->
  PyStr.startswith (a +:+ String "." e') e = true ->
  exists a1, a = e +:+ a1.
Proof.
  revert a; induction e as [|d e IH]; intros a He Hs.
  - now exists a.
  - cbn [no_dot] in He. apply andb_true_iff in He as [Hd He].
    apply negb_true_iff in Hd. destruct a as [|c a].
    + rewrite PyStrFacts.append_nil_l in Hs. cbn [PyStr.startswith] in Hs.
      apply andb_true_iff in Hs as [Hs _]. rewrite Ascii.eqb_sym in Hs. congruence.
    + rewrite PyStrFacts.append_cons in Hs. cbn [PyStr.startswith] in Hs.
      apply andb_true_iff in Hs as [Hc Hs]. apply Ascii.eqb_eq in Hc as <-.
      destruct (IH a He Hs) as [a1 ->]. now exists a1.
Qed.

(** Occurrences of an extension cannot overlap, so the one that ends the
    string is always replaced. *)
Lemma replace_from_suffix e new n :
  no_dot e = true ->
  forall a, String.length a <= n ->
    exists a', PyStr.replace_from (String "." e) new 0 (a +:+ String "." e) = a' +:+ new.
Proof.
  intros He. induction n as [|n IH]; intros a Hn.
  - destruct a; [|cbn in Hn; lia]. exists "".
    rewrite PyStrFacts.append_nil_l. cbn [PyStr.replace_from].
    replace (String "." e) with (String "." e +:+ "") at 1
      by apply PyStrFacts.append_nil_r.
    rewrite PyStrFacts.startswith_append.
    rewrite replace_from_skip by (cbn; lia).
    now rewrite PyStrFacts.append_nil_r.
  - destruct a as [|c a].
    + apply (IH ""). cbn. lia.
    + cbn in Hn. rewrite PyStrFacts.append_cons. cbn [PyStr.replace_from].
      destruct (PyStr.startswith (String c (a +:+ String "." e)) (String "." e)) eqn:Hs.
      * cbn [PyStr.startswith] in Hs. apply andb_true_iff in Hs as [_ Hs].
        destruct (startswith_no_dot _ _ _ He Hs) as [a1 ->].
        cbn [String.length]. rewrite Nat.sub_succ, Nat.sub_0_r.
        rewrite PyStrFacts.append_assoc, replace_from_skip_app.
        destruct (IH a1) as [a' Ha'].
        { rewrite PyStrFacts.length_append in Hn. lia. }
        rewrite Ha'. exists (new +:+ a'). now rewrite PyStrFacts.append_assoc.
      * destruct (IH a) as [a' Ha']; [lia|]. rewrite Ha'.
        exists (String c a'). now rewrite PyStrFacts.append_cons.
Qed.

Lemma replace_ext_endswith p e new :
  no_dot e = true ->
  PyStr.endswith p (String "." e) = true ->
  PyStr.endswith (PyStr.replace p (String "." e) new) new = true.
Proof.
  intros He Hp. apply PyStrFacts.endswith_iff in Hp as [a ->].
  destruct (replace_from_suffix e new _ He a (le_n _)) as [a' Ha'].
  unfold PyStr.replace. rewrite Ha'. apply PyStrFacts.endswith_iff. now exists a'.
Qed.

(** ** The conversions *)

Ltac run_in H :=
  unfold download_youtube_audio_as_mp3_body, convert_mp3_to_wav_body,
    convert_mp4_to_wav_body, convert_audio_to_text_body,
    get_youtube_transcript_video_id, get_youtube_transcript_text,
    traced, try_except, try_except_bound, lib_call, api_call, lib_write,
    moviepy_write, os_remove, written, print, log, raise, os_path_isfile,
    mbind, M_bind, mret, M_ret in H;
  cbn in H; repeat (case_match; simplify_eq; cbn in * ).

(** What a conversion leaves: on success one file written, the returned
    one; on failure no file. *)
Lemma conversion_shape E lang f ext p st r st' :
  conversion_ext f = Some ext ->
  run_stage E lang f p st = (Ret r, st') ->
  (exists w, r = Some w /\ w = PyStr.replace p ext ".wav" /\
             files st' = {[w]} ∪ files st /\
             trace st' = trace st ++ [Call f p; Written w; Return f (Some w)]) \/
  (r = None /\ files st' = files st /\
   trace st' = trace st ++ [Call f p; Return f None]).
Proof.
  intros Hext H. destruct f; try discriminate Hext; injection Hext as <-;
    cbn [run_stage] in H.
  - unfold convert_mp3_to_wav in H. run_in H;
      first [ left; eexists; repeat split; now rewrite <- ?app_assoc
            | right; repeat split; now rewrite <- ?app_assoc ].
  - unfold convert_mp4_to_wav in H. run_in H;
      first [ left; eexists; repeat split; now rewrite <- ?app_assoc
            | right; repeat split; now rewrite <- ?app_assoc ].
Qed.

(** X1: a conversion that succeeds on a path ending in its extension
    returns a path that ends in .wav and is not the input, has written
    that file and touched no other: the input is never overwritten. *)
Theorem conversion_returns_new_wav (E : Env) (lang : string) (f : Stage)
    (ext p : string) (st : State) (w : string) (st' : State) :
  conversion_ext f = Some ext ->
  PyStr.endswith p ext = true ->
  run_stage E lang f p st = (Ret (Some w), st') ->
  PyStr.endswith w ".wav" = true /\ w <> p /\
  files st' = {[w]} ∪ files st /\
  trace st' = trace st ++ [Call f p; Written w; Return f (Some w)].
Proof.
  intros Hext Hp Hrun.
  destruct (conversion_shape _ _ _ _ _ _ _ _ Hext Hrun)
    as [(w' & Hw & -> & Hfiles & Htrace) | (Hr & _)];
    [injection Hw as -> | discriminate Hr].
  assert (Hwav : PyStr.endswith (PyStr.replace p ext ".wav") ".wav" = true).
  { destruct f; try discriminate Hext; injection Hext as <-;
      now apply (replace_ext_endswith p). }
  repeat split; try assumption.
  intros Heq. rewrite Heq in Hwav.
  destruct f; try discriminate Hext; injection Hext as <-;
    discriminate (PyStrFacts.endswith_unique _ _ _ Hp Hwav eq_refl).
Qed.

(** ** The transcription stage *)

Lemma wav_shape (E : Env) (p lang : string) (st : State) :
  PyStr.endswith p ".wav" = true ->
  exists r st',
    convert_audio_to_text E p lang st = (Ret r, st') /\
    files st' = files st /\
    trace st' = trace st ++ [Call F_audio_to_text p; Return F_audio_to_text r] /\
    (forall t, r = Some t -> stdout st' = stdout st) /\
    (r = None -> exists msg,
        stdout st' = stdout st ++ ["Error transcribing audio: " +:+ msg]).
Proof.
  intros Hwav. unfold convert_audio_to_text, convert_audio_to_text_body, get_audio_length. unfold_m. cbn.
  rewrite Hwav. cbn.
  repeat (case_match; simplify_eq; cbn in * );
    eexists _, _; (split; [reflexivity|]); cbn; rewrite <- ?app_assoc;
    (split; [reflexivity|]); (split; [reflexivity|]);
    (split; [intros t Ht; first [discriminate Ht | reflexivity]|]);
    intros Hr; first [discriminate Hr | eexists; reflexivity].
Qed.

(** X3: a path that ends in .wav is transcribed in place: the stage calls
    no conversion and writes no file; it prints nothing when it returns a
    text and one message when it returns None. *)
Theorem wav_is_transcribed_in_place (E : Env) (p lang : string) (st : State) :
  PyStr.endswith p ".wav" = true ->
  exists r st',
    convert_audio_to_text E p lang st = (Ret r, st') /\
    files st' = files st /\
    trace st' = trace st ++ [Call F_audio_to_text p; Return F_audio_to_text r] /\
    (forall t, r = Some t -> stdout st' = stdout st) /\
    (r = None -> exists msg,
        stdout st' = stdout st ++ ["Error transcribing audio: " +:+ msg]).
Proof. apply wav_shape. Qed.

(** X4: a waveform file whose header gives a frame rate of zero yields no
    text: the division that computes the duration raises, the stage
    catches it, prints the message and returns None. *)
Theorem zero_frame_rate_is_caught (E : Env) (p lang : string) (st : State)
    (frames : nat) :
  PyStr.endswith p ".wav" = true ->
  (forall s, wave_open E s p = inr (frames, 0)) ->
  convert_audio_to_text E p lang st
  = (Ret None,
     returned F_audio_to_text None
       (printed "Error transcribing audio: float division by zero"
          (entered F_audio_to_text p st))).
Proof.
  intros Hwav Hopen. unfold convert_audio_to_text, convert_audio_to_text_body, get_audio_length. unfold_m. cbn.
  rewrite Hwav. cbn. rewrite Hopen. reflexivity.
Qed.

(** X5: a text the transcription stage returns is what whisper answered
    for the requested language on the waveform path (the input itself, or
    the path [replace] computed from it), with a model loaded under the
    name of WHISPER_MODEL (large-v3 when unset) on cuda when available and
    on cpu otherwise, after the header of that file gave a non-zero frame
    rate. *)
Theorem text_comes_from_whisper (E : Env) (p lang : string) (st : State)
    (t : string) (st' : State) :
  convert_audio_to_text E p lang st = (Ret (Some t), st') ->
  exists wav s1 s2 s3 frames rate,
    ((PyStr.endswith p ".wav" = true /\ wav = p) \/
     (PyStr.endswith p ".wav" = false /\ PyStr.endswith p ".mp3" = true /\
      wav = PyStr.replace p ".mp3" ".wav") \/
     (PyStr.endswith p ".wav" = false /\ PyStr.endswith p ".mp3" = false /\
      PyStr.endswith p ".mp4" = true /\ wav = PyStr.replace p ".mp4" ".wav")) /\
    wave_open E s1 wav = inr (frames, S rate) /\
    whisper_load_model E s2 (default "large-v3" (getenv_WHISPER_MODEL E))
      (if cuda_is_available E then "cuda" else "cpu") = inr tt /\
    whisper_transcribe E s3 wav lang = inr t.
Proof.
  intros H. unfold convert_audio_to_text, convert_audio_to_text_body, get_audio_length in H.
  unfold traced, try_except, lib_call, print, log, raise, mbind, M_bind, mret, M_ret in H.
  cbn in H.
  destruct (PyStr.endswith p ".wav") eqn:Hwav; cbn in H.
  - repeat (case_match; simplify_eq; cbn in * ).
    all: match goal with
         | Ho : wave_open _ _ _ = inr ?a, Hr : snd ?a = S _ |- _ =>
             destruct a as [fr ra]; cbn in Hr; subst ra
         end.
    all: repeat match goal with u : unit |- _ => destruct u end.
    all: eexists _, _, _, _, _, _; split; [left; split; reflexivity|];
         split; [eassumption|]; split; [first [rewrite H1; eassumption | eassumption]|];
         eassumption.
  - destruct (PyStr.endswith p ".mp3") eqn:Hmp3.
    + destruct (convert_mp3_to_wav E p _) as [o1 s1] eqn:Hc.
      destruct o1 as [[w|]|e]; cbn in H;
        repeat (case_match; simplify_eq; cbn in * ).
      all: match goal with
           | Ho : wave_open _ _ _ = inr ?a, Hr : snd ?a = S _ |- _ =>
               destruct a as [fr ra]; cbn in Hr; subst ra
           end.
      all: repeat match goal with u : unit |- _ => destruct u end.
      all: apply convert_mp3_to_wav_path in Hc; subst w.
      all: eexists _, _, _, _, _, _;
           split; [right; left; repeat split; reflexivity|];
           split; [eassumption|]; split; [first [rewrite H1; eassumption | eassumption]|];
           eassumption.
    + destruct (PyStr.endswith p ".mp4") eqn:Hmp4; cbn in H; [|discriminate H].
      destruct (convert_mp4_to_wav E p _) as [o1 s1] eqn:Hc.
      destruct o1 as [[w|]|e]; cbn in H;
        repeat (case_match; simplify_eq; cbn in * ).
      all: match goal with
           | Ho : wave_open _ _ _ = inr ?a, Hr : snd ?a = S _ |- _ =>
               destruct a as [fr ra]; cbn in Hr; subst ra
           end.
      all: repeat match goal with u : unit |- _ => destruct u end.
      all: apply convert_mp4_to_wav_path in Hc; subst w.
      all: eexists _, _, _, _, _, _;
           split; [right; right; repeat split; reflexivity|];
           split; [eassumption|]; split; [first [rewrite H1; eassumption | eassumption]|];
           eassumption.
Qed.

(** ** The download *)

Lemma download_shape (E : Env) (url : string) (st : State)
    (p : string) (st' : State) :
  download_youtube_audio_as_mp3 E url st = (Ret (Some p), st') ->
  exists vid temp_file,
    pytube_YouTube E (entered F_download url st) url = inr vid /\
    pytube_download E (entered F_download url st) url (vid +:+ ".mp4") = inr temp_file /\
    p = vid +:+ ".mp3" /\ PyStr.endswith p ".mp3" = true /\
    (temp_file ∉ files st') /\
    files st' = ({[p]} ∪ ({[temp_file]} ∪ files st)) ∖ {[temp_file]} /\
    stdout st' = stdout st ++ ["MoviePy - Writing audio in " +:+ p; "MoviePy - Done."] /\
    trace st' = trace st ++ [Call F_download url; Written temp_file; Written p;
                             Removed temp_file; Return F_download (Some p)].
Proof.
  intros H. unfold download_youtube_audio_as_mp3, os_remove in H. run_in H.
  eexists _, _. split; [eassumption|]. split; [eassumption|].
  split; [reflexivity|].
  split; [apply PyStrFacts.endswith_iff; eexists; reflexivity|].
  split; [intros Hin; apply elem_of_difference in Hin as [_ Hn];
          apply Hn, elem_of_singleton; reflexivity|].
  split; [reflexivity|]. split; [now rewrite <- !app_assoc|].
  now rewrite <- !app_assoc.
Qed.

(** X6: a download that succeeds returns the video id followed by .mp3;
    the container pytube wrote has been removed, the mp3 written and no
    other file touched; the two lines of MoviePy about the mp3 are all
    that was printed. *)
Theorem download_leaves_the_mp3 (E : Env) (url : string) (st : State)
    (p : string) (st' : State) :
  download_youtube_audio_as_mp3 E url st = (Ret (Some p), st') ->
  exists vid temp_file,
    pytube_YouTube E (entered F_download url st) url = inr vid /\
    pytube_download E (entered F_download url st) url (vid +:+ ".mp4") = inr temp_file /\
    p = vid +:+ ".mp3" /\ PyStr.endswith p ".mp3" = true /\
    (temp_file ∉ files st') /\
    files st' = ({[p]} ∪ ({[temp_file]} ∪ files st)) ∖ {[temp_file]} /\
    stdout st' = stdout st ++ ["MoviePy - Writing audio in " +:+ p; "MoviePy - Done."] /\
    trace st' = trace st ++ [Call F_download url; Written temp_file; Written p;
                             Removed temp_file; Return F_download (Some p)].
Proof. apply download_shape. Qed.

(** ** Failures *)

(** Closes [p ∈ files st' \/ In (Removed p) evs] for a [Written p] among
    the known events [Hp] of a run. *)
Ltac written_cases Hp :=
  cbn in Hp;
  repeat (destruct Hp as [Hp | Hp];
          [ try first [ discriminate Hp
                      | injection Hp as <-;
                        first [ left; set_solver | right; cbn; tauto ] ] | ]);
  try (destruct Hp; fail).

Ltac known_events Ht :=
  cbn in Ht; rewrite <- ?app_assoc in Ht; apply app_inv_head in Ht; cbn in Ht.

(** A file written during a stage exists when the stage returns, unless
    the stage removed it. *)
Lemma stage_written E lang f arg st r st' evs :
  run_stage E lang f arg st = (Ret r, st') ->
  trace st' = trace st ++ evs ->
  forall p, In (Written p) evs -> p ∈ files st' \/ In (Removed p) evs.
Proof.
  intros H Ht p Hp.
  assert (Hconv : forall g ext, conversion_ext g = Some ext ->
            forall q s0 r0 s1 evs0,
              run_stage E lang g q s0 = (Ret r0, s1) ->
              trace s1 = trace s0 ++ evs0 ->
              forall p0, In (Written p0) evs0 -> p0 ∈ files s1).
  { intros g ext Hg q s0 r0 s1 evs0 Hrun Ht0 p0 Hp0.
    destruct (conversion_shape _ _ _ _ _ _ _ _ Hg Hrun)
      as [(w & _ & _ & Hf & Htr) | (_ & _ & Htr)];
      rewrite Htr in Ht0; apply app_inv_head in Ht0; subst evs0; cbn in Hp0.
    - destruct Hp0 as [Hp0 | [Hp0 | [Hp0 | []]]]; try discriminate Hp0.
      injection Hp0 as <-. rewrite Hf.
      apply elem_of_union. left. now apply elem_of_singleton.
    - destruct Hp0 as [Hp0 | [Hp0 | []]]; discriminate Hp0. }
  destruct f; cbn [run_stage] in H.
  - unfold download_youtube_audio_as_mp3 in H. run_in H;
      known_events Ht; subst evs; written_cases Hp.
    all: match goal with
         | Hw : Written ?x = Written ?q |- _ =>
             let Hq := fresh "Hq" in injection Hw as Hq; subst q
         end.
    all: match goal with
         | Hb : bool_decide (elem_of ?t _) = true |- elem_of ?x _ \/ _ =>
             destruct (decide (x = t)) as [Heq | Hne];
             [right; rewrite Heq; cbn; tauto | left; set_solver]
         end.
  - left. now apply (Hconv F_mp3_to_wav ".mp3" eq_refl _ _ _ _ _ H Ht).
  - left. now apply (Hconv F_mp4_to_wav ".mp4" eq_refl _ _ _ _ _ H Ht).
  - left. unfold convert_audio_to_text, convert_audio_to_text_body, get_audio_length in H.
    unfold traced at 1, try_except at 1, log, print, raise, lib_call,
      mbind, M_bind, mret, M_ret in H.
    cbn in H.
    destruct (PyStr.endswith arg ".wav") eqn:Hwav; cbn in H.
    + repeat (case_match; simplify_eq; cbn in * );
        known_events Ht; subst evs; written_cases Hp.
    + destruct (PyStr.endswith arg ".mp3") eqn:Hmp3.
      * destruct (convert_mp3_to_wav E arg _) as [o1 s1] eqn:Hc.
        destruct (stage_ran E lang F_mp3_to_wav arg (entered F_audio_to_text arg st))
          as (r1 & s1' & mid1 & l1 & Hrun1 & HR1).
        cbn [run_stage] in Hrun1. unfold entered in Hrun1. rewrite Hc in Hrun1.
        injection Hrun1 as -> <-.
        pose proof (ran_trace _ _ _ _ _ _ _ HR1) as Ht1. cbn [entered trace] in Ht1.
        assert (Hin1 : forall p0, In (Written p0) (span F_mp3_to_wav arg mid1 r1) ->
                  p0 ∈ files s1).
        { apply (Hconv F_mp3_to_wav ".mp3" eq_refl arg
                   (entered F_audio_to_text arg st) r1 s1); [exact Hc|].
          cbn [entered trace]. exact Ht1. }
        assert (Hfin : trace st' = trace s1 ++ [Return F_audio_to_text r] /\
                       files st' = files s1).
        { destruct r1; cbn in H;
            repeat (case_match; simplify_eq; cbn in * ); simplify_eq; split; reflexivity. }
        destruct Hfin as [Htf Hff]. rewrite Htf, Ht1, <- !app_assoc in Ht.
        apply app_inv_head in Ht. subst evs. rewrite Hff.
        rewrite !in_app_iff in Hp. destruct Hp as [Hp | [Hp | Hp]];
          [ destruct Hp as [Hp | []]; discriminate Hp
          | now apply Hin1
          | destruct Hp as [Hp | []]; discriminate Hp ].
      * destruct (PyStr.endswith arg ".mp4") eqn:Hmp4; cbn in H.
        -- destruct (convert_mp4_to_wav E arg _) as [o1 s1] eqn:Hc.
           destruct (stage_ran E lang F_mp4_to_wav arg (entered F_audio_to_text arg st))
             as (r1 & s1' & mid1 & l1 & Hrun1 & HR1).
           cbn [run_stage] in Hrun1. unfold entered in Hrun1. rewrite Hc in Hrun1.
           injection Hrun1 as -> <-.
           pose proof (ran_trace _ _ _ _ _ _ _ HR1) as Ht1. cbn [entered trace] in Ht1.
           assert (Hin1 : forall p0, In (Written p0) (span F_mp4_to_wav arg mid1 r1) ->
                     p0 ∈ files s1).
           { apply (Hconv F_mp4_to_wav ".mp4" eq_refl arg
                      (entered F_audio_to_text arg st) r1 s1); [exact Hc|].
             cbn [entered trace]. exact Ht1. }
           assert (Hfin : trace st' = trace s1 ++ [Return F_audio_to_text r] /\
                          files st' = files s1).
           { destruct r1; cbn in H;
               repeat (case_match; simplify_eq; cbn in * ); simplify_eq; split; reflexivity. }
           destruct Hfin as [Htf Hff]. rewrite Htf, Ht1, <- !app_assoc in Ht.
           apply app_inv_head in Ht. subst evs. rewrite Hff.
           rewrite !in_app_iff in Hp. destruct Hp as [Hp | [Hp | Hp]];
             [ destruct Hp as [Hp | []]; discriminate Hp
             | now apply Hin1
             | destruct Hp as [Hp | []]; discriminate Hp ].
        -- simplify_eq. known_events Ht. subst evs. written_cases Hp.
  - unfold get_youtube_transcript in H. run_in H;
      known_events Ht; subst evs; written_cases Hp.
Qed.

(** X7: a stage that returns None has removed no file: every file that
    existed before the call still exists, and so does every file written
    during it, the downloaded container included when the download failed
    after writing it. *)
Theorem failed_stage_removes_nothing (E : Env) (lang : string) (f : Stage)
    (arg : string) (st st' : State) :
  run_stage E lang f arg st = (Ret None, st') ->
  files st ⊆ files st' /\
  exists evs, trace st' = trace st ++ evs /\
    (forall p, In (Written p) evs -> p ∈ files st') /\
    (forall p, ~ In (Removed p) evs).
Proof.
  intros H.
  destruct (stage_ran E lang f arg st) as (r & st1 & mid & lines & Hrun & HR).
  rewrite H in Hrun. injection Hrun as <- <-.
  assert (Hnr : forall p, ~ In (Removed p) (span f arg mid None)).
  { intros p Hp. apply (span_removed _ _ _ _ _ _ _ _ HR) in Hp as (_ & vid & _ & Hr).
    discriminate Hr. }
  split.
  - intros p Hp.
    destruct (ran_files _ _ _ _ _ _ _ HR p Hp) as [Hin | Hin]; [exact Hin|].
    exfalso. apply (Hnr p). apply in_span. tauto.
  - exists (span f arg mid None). split; [apply (ran_trace _ _ _ _ _ _ _ HR)|].
    split; [|exact Hnr]. intros p Hp.
    destruct (stage_written _ _ _ _ _ _ _ _ H (ran_trace _ _ _ _ _ _ _ HR) p Hp)
      as [Hin | Hin]; [exact Hin | destruct (Hnr p Hin)].
Qed.

(** X8: the last line a stage has printed when it returns None is its own
    failure message: each stage has one, the transcript fetch two. *)
Theorem failed_stage_names_itself (E : Env) (lang : string) (f : Stage)
    (arg : string) (st st' : State) :
  run_stage E lang f arg st = (Ret None, st') ->
  exists line,
    last (stdout st') = Some line /\
    existsb (PyStr.startswith line) (failure_messages f) = true.
Proof.
  intros H. destruct f; cbn [run_stage] in H.
  - unfold download_youtube_audio_as_mp3, os_remove in H. run_in H;
      eexists; (split; [apply last_snoc | reflexivity]).
  - unfold convert_mp3_to_wav in H. run_in H;
      eexists; (split; [apply last_snoc | reflexivity]).
  - unfold convert_mp4_to_wav in H. run_in H;
      eexists; (split; [apply last_snoc | reflexivity]).
  - unfold convert_audio_to_text, convert_audio_to_text_body, get_audio_length in H. run_in H;
      eexists; (split; [apply last_snoc | reflexivity]).
  - unfold get_youtube_transcript in H. run_in H;
      eexists; (split; [apply last_snoc | reflexivity]).
Qed.

(** X9: when the transcript fetch returns None an exception was raised
    inside it, and the last thing the fetch did was print its line: when
    pytube raised on the URL, "Error retrieving transcript: " and the text
    of that exception; when a later call raised, for the video id pytube
    gave, "No transcript available for video: " and that id if the
    exception is TranscriptsDisabled or NoTranscriptFound, and "Error
    retrieving transcript: " and the text of the exception otherwise. *)
Theorem no_transcript_message (E : Env) (url lang : string) (st st' : State) :
  get_youtube_transcript E url lang st = (Ret None, st') ->
  (exists e s,
      get_youtube_transcript_video_id E url (entered F_transcript url st)
      = (Raise e, s) /\
      st' = returned F_transcript None
              (printed ("Error retrieving transcript: " +:+ exn_str e) s)) \/
  (exists vid s1 e s,
      get_youtube_transcript_video_id E url (entered F_transcript url st)
      = (Ret vid, s1) /\
      get_youtube_transcript_text E lang vid s1 = (Raise e, s) /\
      transcript_failure_line vid e
      = (if no_transcript_exn e
         then "No transcript available for video: " +:+ vid
         else "Error retrieving transcript: " +:+ exn_str e) /\
      st' = returned F_transcript None (printed (transcript_failure_line vid e) s)).
Proof.
  intros H. pose proof (get_youtube_transcript_handled E url lang st) as Hh.
  destruct (get_youtube_transcript_video_id E url _) as [[vid | e] s1].
  - destruct (get_youtube_transcript_text E lang vid s1) as [[r | e] s] eqn:Ht.
    + rewrite H in Hh. injection Hh as <- _.
      unfold get_youtube_transcript_text, api_call, print,
        mbind, M_bind, mret, M_ret in Ht.
      repeat (case_match; simplify_eq; cbn in * ).
    + right. exists vid, s1, e, s. split; [reflexivity|]. split; [exact Ht|].
      split; [reflexivity|]. rewrite H in Hh. now injection Hh as ->.
  - left. exists e, s1. split; [reflexivity|]. rewrite H in Hh. now injection Hh as ->.
Qed.

(** ** How the stages compose in [main] *)

Lemma Step_mid E lang f arg st r st' mid lines evs :
  Step E lang f arg st r st' mid lines ->
  trace st' = trace st ++ Call f arg :: evs ++ [Return f r] ->
  mid = evs.
Proof.
  intros [_ HR] Ht. rewrite (ran_trace _ _ _ _ _ _ _ HR) in Ht.
  apply app_inv_head in Ht. unfold span in Ht. injection Ht as Ht.
  now apply app_inv_tail in Ht.
Qed.

Lemma last_span {f arg mid r} pre :
  last (pre ++ span f arg mid r) = Some (Return f r).
Proof.
  unfold span. rewrite app_comm_cons, app_assoc. apply last_snoc.
Qed.

Lemma last_span0 f arg mid r : last (span f arg mid r) = Some (Return f r).
Proof. apply (last_span []). Qed.

(** The transcription stage on a path ending in .mp3 starts with the mp3
    conversion of that path. *)
Lemma mp3_is_converted_first E p lang st r st' :
  PyStr.endswith p ".mp3" = true ->
  convert_audio_to_text E p lang st = (Ret r, st') ->
  exists rest,
    trace st' = trace st ++ Call F_audio_to_text p :: Call F_mp3_to_wav p :: rest.
Proof.
  intros Hmp3 H. unfold convert_audio_to_text, convert_audio_to_text_body, get_audio_length in H.
  unfold traced at 1, try_except at 1, log, print, raise, lib_call,
    mbind, M_bind, mret, M_ret in H.
  cbn in H. rewrite (endswith_mp3_not_wav _ Hmp3), Hmp3 in H. cbn in H.
  destruct (convert_mp3_to_wav_ran E lang p (entered F_audio_to_text p st))
    as (r1 & st1 & mid1 & l1 & Hrun & HR).
  unfold run_stage, entered in Hrun. rewrite Hrun in H.
  pose proof (ran_trace _ _ _ _ _ _ _ HR) as Ht. cbn in Ht.
  repeat (case_match; simplify_eq; cbn in * );
    rewrite Ht, <- !app_assoc; eexists; reflexivity.
Qed.

(** X2: for an existing file whose name ends in .mp4, [main] converts
    once: when the conversion succeeds the transcription stage receives a
    path ending in .wav and runs no conversion of its own; when it fails,
    [main] stops after its message, without entering the transcription
    stage. *)
Theorem local_mp4_is_converted_once (E : Env) (args : Args) (st : State) :
  source args ∈ files st ->
  PyStr.endswith (source args) ".mp4" = true ->
  exists st' evs,
    main E args st = (Ret tt, st') /\ trace st' = trace st ++ evs /\
    ((exists text,
         evs = [Call F_mp4_to_wav (source args);
                Written (PyStr.replace (source args) ".mp4" ".wav");
                Return F_mp4_to_wav (Some (PyStr.replace (source args) ".mp4" ".wav"));
                Call F_audio_to_text (PyStr.replace (source args) ".mp4" ".wav");
                Return F_audio_to_text text] /\
         PyStr.endswith (PyStr.replace (source args) ".mp4" ".wav") ".wav" = true) \/
     (evs = [Call F_mp4_to_wav (source args); Return F_mp4_to_wav None] /\
      last (stdout st') = Some "Failed to convert MP4 to WAV.")).
Proof.
  intros Hfile Hmp4.
  destruct (main_run E args st) as (st' & evs & lines & Hmain & HM).
  exists st', evs. split; [exact Hmain|].
  split; [apply (MainRun_grows _ _ _ _ _ _ HM)|].
  destruct HM as [ | st1 mid1 l1 _ _ Hs1
                 | audio_file st1 mid1 l1 text st2 mid2 l2 _ _ Hs1 Hs2
                 | text st2 mid2 l2 _ Hno Hs2
                 | | | ]; try contradiction; try congruence.
  - right. pose proof Hs1 as [Hrun1 _].
    destruct (conversion_shape _ _ F_mp4_to_wav ".mp4" _ _ _ _ eq_refl Hrun1)
      as [(w & Hw & _) | (_ & _ & Ht)]; [discriminate Hw|].
    rewrite (Step_mid _ _ _ _ _ _ _ _ _ [] Hs1 Ht). split; [reflexivity|].
    apply last_snoc.
  - left. pose proof Hs1 as [Hrun1 _].
    destruct (conversion_shape _ _ F_mp4_to_wav ".mp4" _ _ _ _ eq_refl Hrun1)
      as [(w & Hw & Hwp & _ & Ht) | (Hr & _)]; [|discriminate Hr].
    injection Hw as ->. subst w.
    rewrite (Step_mid _ _ _ _ _ _ _ _ _ [Written _] Hs1 Ht).
    assert (Hwav : PyStr.endswith (PyStr.replace (source args) ".mp4" ".wav") ".wav" = true)
      by now apply (replace_ext_endswith (source args)).
    pose proof Hs2 as [Hrun2 _]. cbn [run_stage] in Hrun2.
    destruct (wav_shape E _ (language args) st1 Hwav) as (r & s' & Hr & _ & Ht2 & _).
    rewrite Hrun2 in Hr. injection Hr as <- <-.
    rewrite (Step_mid _ _ _ _ _ _ _ _ _ [] Hs2 Ht2).
    exists text. split; [reflexivity | exact Hwav].
Qed.

(** X10: [main] enters no stage exactly when the source is neither an
    existing file nor a valid URL; all it does then is print its message. *)
Theorem no_stage_iff_invalid (E : Env) (args : Args) (st : State) :
  exists st' evs,
    main E args st = (Ret tt, st') /\ trace st' = trace st ++ evs /\
    (evs = [] <->
     (source args ∉ files st) /\ is_valid_youtube_url (source args) = false) /\
    (evs = [] ->
     st' = printed
             "Invalid source. Please provide a valid YouTube URL or local audio file path."
             st).
Proof.
  destruct (main_run E args st) as (st' & evs & lines & Hmain & HM).
  exists st', evs. split; [exact Hmain|].
  split; [apply (MainRun_grows _ _ _ _ _ _ HM)|].
  destruct HM as [Hf Hu | st1 mid1 l1 Hf _ _
                 | audio_file st1 mid1 l1 text st2 mid2 l2 Hf _ _ _
                 | text st2 mid2 l2 Hf _ _
                 | t st1 mid1 l1 _ Hu _ _
                 | st0 evs0 l0 st1 mid1 l1 _ Hu _ _
                 | st0 evs0 l0 audio_file st1 mid1 l1 text st2 mid2 l2 _ Hu _ _ _ ].
  - split; [split; [intros _; now split | reflexivity] | reflexivity].
  - split; [split; [discriminate | intros [Hn _]; contradiction] | discriminate].
  - split; [split; [discriminate | intros [Hn _]; contradiction] | discriminate].
  - split; [split; [discriminate | intros [Hn _]; contradiction] | discriminate].
  - split; [split; [discriminate | intros [_ Hn]; congruence] | discriminate].
  - assert (Hne : evs0 ++ span F_download (source args) mid1 None <> []).
    { intros Hx. apply app_eq_nil in Hx as [_ Hx]. discriminate Hx. }
    split; [split; [intros Hx; contradiction | intros [_ Hn]; congruence]
           | intros Hx; contradiction].
  - assert (Hne : evs0 ++ span F_download (source args) mid1 (Some audio_file)
                    ++ span F_audio_to_text audio_file mid2 text <> []).
    { intros Hx. apply app_eq_nil in Hx as [_ Hx].
      apply app_eq_nil in Hx as [Hx _]. discriminate Hx. }
    split; [split; [intros Hx; contradiction | intros [_ Hn]; congruence]
           | intros Hx; contradiction].
Qed.

(** X11: a run on an existing file removes no file: everything that
    existed before, the source included, exists after. *)
Theorem local_run_removes_nothing (E : Env) (args : Args) (st : State) :
  source args ∈ files st ->
  exists st', main E args st = (Ret tt, st') /\ files st ⊆ files st'.
Proof.
  intros Hfile.
  destruct (main_run E args st) as (st' & evs & lines & Hmain & HM).
  exists st'. split; [exact Hmain|]. intros p Hp.
  destruct (MainRun_files _ _ _ _ _ _ HM p Hp) as [Hin | Hrm]; [exact Hin|].
  exfalso.
  destruct HM as [ | st1 mid1 l1 _ _ Hs1
                 | audio_file st1 mid1 l1 text st2 mid2 l2 _ _ Hs1 Hs2
                 | text st2 mid2 l2 _ _ Hs2
                 | | | ]; try contradiction;
    open_steps; event_cases Hrm;
    match goal with
    | HR : Ran ?f _ _ _ _ ?mid _, Hq : In (Removed p) (span ?f _ ?mid _) |- _ =>
        apply (span_removed _ _ _ _ _ _ _ _ HR) in Hq as (Hf & _); discriminate Hf
    end.
Qed.

(** X12: when the last stage of a run returned a text, that stage is the
    transcript fetch or the transcription stage, and the text is the last
    line [main] prints. *)
Theorem text_is_the_last_line (E : Env) (args : Args) (st : State) :
  exists st' evs,
    main E args st = (Ret tt, st') /\ trace st' = trace st ++ evs /\
    forall f t, last evs = Some (Return f (Some t)) ->
      (f = F_transcript \/ f = F_audio_to_text) /\ last (stdout st') = Some t.
Proof.
  destruct (main_run E args st) as (st' & evs & lines & Hmain & HM).
  exists st', evs. split; [exact Hmain|].
  destruct (MainRun_grows _ _ _ _ _ _ HM) as [Ht Hs]. split; [exact Ht|].
  intros f t Hlast. rewrite Hs. clear Ht Hs Hmain.
  destruct HM as [ | st1 mid1 l1 _ _ Hs1
                 | audio_file st1 mid1 l1 text st2 mid2 l2 _ _ Hs1 Hs2
                 | text st2 mid2 l2 _ _ Hs2
                 | t1 st1 mid1 l1 _ _ _ Hs1
                 | st0 evs0 l0 st1 mid1 l1 _ _ Hnt Hs1
                 | st0 evs0 l0 audio_file st1 mid1 l1 text st2 mid2 l2 _ _ Hnt Hs1 Hs2 ].
  - discriminate Hlast.
  - rewrite last_span0 in Hlast. discriminate Hlast.
  - rewrite last_span in Hlast. injection Hlast as <- ->.
    split; [tauto|]. cbn [text_lines]. rewrite !app_assoc. apply last_snoc.
  - rewrite last_span0 in Hlast. injection Hlast as <- ->.
    split; [tauto|]. cbn [text_lines]. rewrite !app_assoc. apply last_snoc.
  - rewrite last_span0 in Hlast. injection Hlast as <- <-.
    split; [tauto|]. rewrite !app_assoc. apply last_snoc.
  - rewrite last_span in Hlast. discriminate Hlast.
  - rewrite app_assoc, last_span in Hlast. injection Hlast as <- ->.
    split; [tauto|]. cbn [text_lines]. rewrite !app_assoc. apply last_snoc.
Qed.

(** X17: whenever the download returns a file in a run of [main], its
    name ends in .mp3, the transcription stage is entered on it and starts
    by converting it to a waveform file. *)
Theorem downloaded_mp3_is_converted (E : Env) (args : Args) (st : State) :
  exists st' evs,
    main E args st = (Ret tt, st') /\ trace st' = trace st ++ evs /\
    forall p, In (Return F_download (Some p)) evs ->
      PyStr.endswith p ".mp3" = true /\
      In (Call F_audio_to_text p) evs /\ In (Call F_mp3_to_wav p) evs.
Proof.
  destruct (main_run E args st) as (st' & evs & lines & Hmain & HM).
  exists st', evs. split; [exact Hmain|].
  split; [apply (MainRun_grows _ _ _ _ _ _ HM)|].
  intros p Hp.
  destruct HM as [ | st1 mid1 l1 _ _ Hs1
                 | audio_file st1 mid1 l1 text st2 mid2 l2 _ _ Hs1 Hs2
                 | text st2 mid2 l2 _ _ Hs2
                 | t1 st1 mid1 l1 _ _ _ Hs1
                 | st0 evs0 l0 st1 mid1 l1 _ _ Hnt Hs1
                 | st0 evs0 l0 audio_file st1 mid1 l1 text st2 mid2 l2 _ _ Hnt Hs1 Hs2 ].
  - destruct Hp.
  - open_steps. ev_false Hp.
  - open_steps. ev_false Hp.
  - open_steps. ev_false Hp.
  - open_steps. ev_false Hp.
  - open_notext Hnt; ev_false Hp.
  - assert (Hevs0 : ~ In (Return F_download (Some p)) evs0).
    { intros Hx. open_notext Hnt; ev_false Hx. }
    pose proof Hs1 as [Hrun1 HR1]. pose proof Hs2 as [Hrun2 HR2].
    cbn [run_stage] in Hrun1, Hrun2.
    apply in_app_or in Hp as [Hp | Hp]; [contradiction|].
    apply in_app_or in Hp as [Hp | Hp].
    + apply span_return in Hp as [[_ Hp] | []];
        [|apply (ran_within _ _ _ _ _ _ _ HR1)].
      injection Hp as ->.
      destruct (download_shape _ _ _ _ _ Hrun1) as (vid & tmp & _ & _ & _ & Hmp3 & _).
      split; [exact Hmp3|]. split; [ev_true|].
      destruct (mp3_is_converted_first _ _ _ _ _ _ Hmp3 Hrun2) as [rest Hrest].
      rewrite (ran_trace _ _ _ _ _ _ _ HR2) in Hrest. apply app_inv_head in Hrest.
      rewrite Hrest. apply in_app_iff. right. apply in_app_iff. right.
      cbn. tauto.
    + exfalso. eapply span_stage in Hp;
        [| apply (ran_within _ _ _ _ _ _ _ HR2) | reflexivity].
      cbn in Hp. intuition discriminate.
Qed.

(** ** More on the URL pattern *)

Lemma no_newline_app a b :
  no_newline (a +:+ b) = no_newline a && no_newline b.
Proof.
  induction a as [|c a IH]; [reflexivity|].
  rewrite PyStrFacts.append_cons. cbn [no_newline]. now rewrite IH, andb_assoc.
Qed.

Lemma append_inv_head (a x y : string) : a +:+ x = a +:+ y -> x = y.
Proof.
  induction a as [|c a IH]; [trivial|].
  rewrite !PyStrFacts.append_cons. intros H. injection H as H. now apply IH.
Qed.

(** X13: text appended to a valid URL, a query string for one, leaves it
    valid, as long as neither holds a newline. *)
Theorem query_suffix_keeps_valid (s q : string) :
  is_valid_youtube_url s = true ->
  no_newline s = true -> no_newline q = true ->
  is_valid_youtube_url (s +:+ q) = true.
Proof.
  intros Hv Hs Hq. apply UrlFacts.is_valid_youtube_url_spec in Hv
    as (scheme & host & rest & tail & Hsch & Hh & Hr & Hnl & Ht & ->).
  apply UrlFacts.is_valid_youtube_url_spec.
  exists scheme, host, (rest +:+ q), "".
  split; [exact Hsch|]. split; [exact Hh|].
  split; [destruct rest; [congruence | discriminate]|].
  split; [rewrite no_newline_app, Hnl, Hq; reflexivity|].
  split; [now left|].
  rewrite !no_newline_app, !andb_true_iff in Hs.
  destruct Hs as (_ & _ & _ & _ & Htl).
  destruct Ht as [<- | [<- | []]]; [|discriminate Htl].
  now rewrite !PyStrFacts.append_assoc, !PyStrFacts.append_nil_r.
Qed.

(** The strings a scheme can be put in front of: host, [/], path. *)
Lemma with_scheme_iff (sch s : string) :
  sch = "http://" \/ sch = "https://" ->
  is_valid_youtube_url (sch +:+ s) = true <->
  is_valid_youtube_url s = true /\ PyStr.startswith s "http" = false.
Proof.
  intros Hsch. rewrite !UrlFacts.is_valid_youtube_url_spec. split.
  - intros (scheme & host & rest & tail & Hs & Hh & Hr & Hnl & Ht & Heq).
    assert (Hs' : s = host +:+ "/" +:+ rest +:+ tail).
    { cbn [In] in Hs, Hh.
      destruct Hsch as [-> | ->];
        destruct Hs as [<- | [<- | [<- | []]]];
        try (now apply (append_inv_head _ _ _ Heq));
        destruct Hh as [<- | [<- | [<- | []]]]; cbv in Heq; discriminate Heq. }
    subst s. split.
    + exists "", host, rest, tail. cbn [In]. tauto.
    + cbn [In] in Hh. destruct Hh as [<- | [<- | [<- | []]]]; reflexivity.
  - intros [(scheme & host & rest & tail & Hs & Hh & Hr & Hnl & Ht & ->) Hst].
    cbn [In] in Hs. destruct Hs as [<- | [<- | [<- | []]]];
      [| discriminate Hst | discriminate Hst].
    exists sch, host, rest, tail.
    split; [cbn [In]; destruct Hsch as [-> | ->]; tauto|]. tauto.
Qed.

(** X14: [http://] and [https://] are treated alike, and either can be put
    in front of exactly the valid URLs that have no scheme yet. *)
Theorem scheme_is_optional (s : string) :
  is_valid_youtube_url ("http://" +:+ s) = is_valid_youtube_url ("https://" +:+ s) /\
  is_valid_youtube_url ("https://" +:+ s)
  = is_valid_youtube_url s && negb (PyStr.startswith s "http").
Proof.
  assert (H : forall sch, sch = "http://" \/ sch = "https://" ->
            is_valid_youtube_url (sch +:+ s)
            = is_valid_youtube_url s && negb (PyStr.startswith s "http")).
  { intros sch Hsch. apply eq_true_iff_eq.
    rewrite (with_scheme_iff sch s Hsch), andb_true_iff, negb_true_iff. tauto. }
  split; [rewrite !H by tauto; reflexivity | apply H; tauto].
Qed.

(** X15: links to YouTube under a host other than [www.youtube.com] or
    [youtu.be] are rejected whatever follows: the bare domain, the mobile
    and the music site, with or without a scheme. *)
Theorem other_youtube_hosts_are_rejected (scheme host rest : string) :
  In scheme [""; "http://"; "https://"] ->
  In host ["youtube.com"; "m.youtube.com"; "music.youtube.com"] ->
  is_valid_youtube_url (scheme +:+ host +:+ "/" +:+ rest) = false.
Proof.
  cbn [In]. intros [<- | [<- | [<- | []]]] [<- | [<- | [<- | []]]]; reflexivity.
Qed.

(** ** The progress bar *)

(** X16: the bar does not drift: whatever it showed before, after the
    callbacks of a download it shows the file size less the bytes the last
    one reported as remaining, and its total is untouched; so a bar
    created with the file size as its total is full when nothing
    remains. *)
Theorem progress_shows_bytes_downloaded (filesize : Z) (earlier : list Z)
    (bytes_remaining : Z) (bar : Progress.Tqdm) :
  Progress.n (Progress.callbacks filesize (earlier ++ [bytes_remaining]) bar)
  = (filesize - bytes_remaining)%Z /\
  Progress.total (Progress.callbacks filesize (earlier ++ [bytes_remaining]) bar)
  = Progress.total bar /\
  Progress.n (Progress.callbacks filesize (earlier ++ [0%Z]) (Progress.tqdm filesize))
  = Progress.total (Progress.callbacks filesize (earlier ++ [0%Z]) (Progress.tqdm filesize)).
Proof.
  assert (Htotal : forall rs b,
            Progress.total (Progress.callbacks filesize rs b) = Progress.total b).
  { induction rs as [|r rs IH]; intros b; [reflexivity|].
    cbn. change (fold_left _ rs ?x) with (Progress.callbacks filesize rs x).
    now rewrite IH. }
  assert (Hn : forall r b,
            Progress.n (Progress.callbacks filesize (earlier ++ [r]) b)
            = (filesize - r)%Z).
  { intros r b. unfold Progress.callbacks. rewrite fold_left_app. cbn. lia. }
  split; [apply Hn|]. split; [apply Htotal|].
  rewrite Hn, Htotal. cbn. lia.
Qed.

(** ** The properties above on concrete runs *)

(** X1 on [talk.mp3] with every library call succeeding. *)
Lemma conversion_returns_new_wav_witness :
  PyStr.endswith "talk.wav" ".wav" = true /\ "talk.wav" <> "talk.mp3" /\
  files (snd (run_stage env_ok "en" F_mp3_to_wav "talk.mp3" (state_with "talk.mp3")))
  = {["talk.wav"]} ∪ files (state_with "talk.mp3") /\
  trace (snd (run_stage env_ok "en" F_mp3_to_wav "talk.mp3" (state_with "talk.mp3")))
  = trace (state_with "talk.mp3")
    ++ [Call F_mp3_to_wav "talk.mp3"; Written "talk.wav";
        Return F_mp3_to_wav (Some "talk.wav")].
Proof.
  apply (conversion_returns_new_wav env_ok "en" F_mp3_to_wav ".mp3" "talk.mp3"
           (state_with "talk.mp3") "talk.wav"); reflexivity.
Defined.

(** X2 on [clip.mp4] with every library call succeeding. *)
Lemma local_mp4_is_converted_once_witness :
  exists st' evs,
    main env_ok (file_args "clip.mp4") (state_with "clip.mp4") = (Ret tt, st') /\
    trace st' = trace (state_with "clip.mp4") ++ evs /\
    ((exists text,
         evs = [Call F_mp4_to_wav (source (file_args "clip.mp4"));
                Written (PyStr.replace (source (file_args "clip.mp4")) ".mp4" ".wav");
                Return F_mp4_to_wav
                  (Some (PyStr.replace (source (file_args "clip.mp4")) ".mp4" ".wav"));
                Call F_audio_to_text
                  (PyStr.replace (source (file_args "clip.mp4")) ".mp4" ".wav");
                Return F_audio_to_text text] /\
         PyStr.endswith (PyStr.replace (source (file_args "clip.mp4")) ".mp4" ".wav")
           ".wav" = true) \/
     (evs = [Call F_mp4_to_wav (source (file_args "clip.mp4"));
             Return F_mp4_to_wav None] /\
      last (stdout st') = Some "Failed to convert MP4 to WAV.")).
Proof.
  apply (local_mp4_is_converted_once env_ok (file_args "clip.mp4") (state_with "clip.mp4")).
  - apply (bool_decide_unpack _). vm_compute. exact I.
  - reflexivity.
Defined.

(** X3 on [talk.wav] with every library call succeeding. *)
Lemma wav_is_transcribed_in_place_witness :
  exists r st',
    convert_audio_to_text env_ok "talk.wav" "en" (state_with "talk.wav") = (Ret r, st') /\
    files st' = files (state_with "talk.wav") /\
    trace st' = trace (state_with "talk.wav")
                ++ [Call F_audio_to_text "talk.wav"; Return F_audio_to_text r] /\
    (forall t, r = Some t -> stdout st' = stdout (state_with "talk.wav")) /\
    (r = None -> exists msg,
        stdout st' = stdout (state_with "talk.wav")
                     ++ ["Error transcribing audio: " +:+ msg]).
Proof.
  apply (wav_is_transcribed_in_place env_ok "talk.wav" "en" (state_with "talk.wav")).
  reflexivity.
Defined.

(** X4 on [talk.wav] with a header that gives a frame rate of zero. *)
Lemma zero_frame_rate_is_caught_witness :
  convert_audio_to_text env_zero_rate "talk.wav" "en" (state_with "talk.wav")
  = (Ret None,
     returned F_audio_to_text None
       (printed "Error transcribing audio: float division by zero"
          (entered F_audio_to_text "talk.wav" (state_with "talk.wav")))).
Proof.
  apply (zero_frame_rate_is_caught env_zero_rate "talk.wav" "en"
           (state_with "talk.wav") 480).
  - reflexivity.
  - intros s. reflexivity.
Defined.

(** X5 on [talk.mp3] with every library call succeeding. *)
Lemma text_comes_from_whisper_witness :
  exists wav s1 s2 s3 frames rate,
    ((PyStr.endswith "talk.mp3" ".wav" = true /\ wav = "talk.mp3") \/
     (PyStr.endswith "talk.mp3" ".wav" = false /\
      PyStr.endswith "talk.mp3" ".mp3" = true /\
      wav = PyStr.replace "talk.mp3" ".mp3" ".wav") \/
     (PyStr.endswith "talk.mp3" ".wav" = false /\
      PyStr.endswith "talk.mp3" ".mp3" = false /\
      PyStr.endswith "talk.mp3" ".mp4" = true /\
      wav = PyStr.replace "talk.mp3" ".mp4" ".wav")) /\
    wave_open env_ok s1 wav = inr (frames, S rate) /\
    whisper_load_model env_ok s2 (default "large-v3" (getenv_WHISPER_MODEL env_ok))
      (if cuda_is_available env_ok then "cuda" else "cpu") = inr tt /\
    whisper_transcribe env_ok s3 wav "en" = inr "hello world".
Proof.
  apply (text_comes_from_whisper env_ok "talk.mp3" "en" (state_with "talk.mp3")
           "hello world"
           (snd (convert_audio_to_text env_ok "talk.mp3" "en" (state_with "talk.mp3")))).
  reflexivity.
Defined.

(** X6 on the download of [url_args true] with every library call
    succeeding. *)
Lemma download_leaves_the_mp3_witness :
  exists vid temp_file,
    pytube_YouTube env_ok (entered F_download (source (url_args true)) empty_state)
      (source (url_args true)) = inr vid /\
    pytube_download env_ok (entered F_download (source (url_args true)) empty_state)
      (source (url_args true)) (vid +:+ ".mp4") = inr temp_file /\
    "dQw4w9WgXcQ.mp3" = vid +:+ ".mp3" /\
    PyStr.endswith "dQw4w9WgXcQ.mp3" ".mp3" = true /\
    (temp_file ∉ files (snd (download_youtube_audio_as_mp3 env_ok
                               (source (url_args true)) empty_state))) /\
    files (snd (download_youtube_audio_as_mp3 env_ok (source (url_args true)) empty_state))
    = ({["dQw4w9WgXcQ.mp3"]} ∪ ({[temp_file]} ∪ files empty_state)) ∖ {[temp_file]} /\
    stdout (snd (download_youtube_audio_as_mp3 env_ok (source (url_args true)) empty_state))
    = stdout empty_state
      ++ ["MoviePy - Writing audio in " +:+ "dQw4w9WgXcQ.mp3"; "MoviePy - Done."] /\
    trace (snd (download_youtube_audio_as_mp3 env_ok (source (url_args true)) empty_state))
    = trace empty_state
      ++ [Call F_download (source (url_args true)); Written temp_file;
          Written "dQw4w9WgXcQ.mp3"; Removed temp_file;
          Return F_download (Some "dQw4w9WgXcQ.mp3")].
Proof.
  apply (download_leaves_the_mp3 env_ok (source (url_args true)) empty_state
           "dQw4w9WgXcQ.mp3").
  reflexivity.
Defined.

(** X7 on a download that fails after the container is written. *)
Lemma failed_stage_removes_nothing_witness :
  files (state_with "talk.mp3") ⊆ files failed_download /\
  exists evs, trace failed_download = trace (state_with "talk.mp3") ++ evs /\
    (forall p, In (Written p) evs -> p ∈ files failed_download) /\
    (forall p, ~ In (Removed p) evs).
Proof.
  apply (failed_stage_removes_nothing env_bad_container "en" F_download
           (source (url_args true)) (state_with "talk.mp3")).
  reflexivity.
Defined.

(** In that run the container is written and is still there at the end,
    next to the file that was there before. *)
Example failed_download_leaves_the_container :
  trace failed_download
  = [Call F_download "https://youtu.be/dQw4w9WgXcQ";
     Written "/work/dQw4w9WgXcQ.mp4"; Return F_download None] /\
  stdout failed_download = ["Error downloading YouTube video: could not read file"] /\
  "/work/dQw4w9WgXcQ.mp4" ∈ files failed_download /\
  "talk.mp3" ∈ files failed_download.
Proof.
  split; [vm_compute; reflexivity|]. split; [vm_compute; reflexivity|].
  split; apply (bool_decide_unpack _); vm_compute; exact I.
Qed.

(** X8 on the transcription of [notes.txt]. *)
Lemma failed_stage_names_itself_witness :
  exists line,
    last (stdout (snd (run_stage env_down "en" F_audio_to_text "notes.txt"
                         (state_with "notes.txt")))) = Some line /\
    existsb (PyStr.startswith line) (failure_messages F_audio_to_text) = true.
Proof.
  apply (failed_stage_names_itself env_down "en" F_audio_to_text "notes.txt"
           (state_with "notes.txt")).
  reflexivity.
Defined.

(** X9 on the fetch with every library down. *)
Lemma no_transcript_message_witness :
  (exists e s,
      get_youtube_transcript_video_id env_down "https://youtu.be/dQw4w9WgXcQ"
        (entered F_transcript "https://youtu.be/dQw4w9WgXcQ" empty_state)
      = (Raise e, s) /\
      snd (get_youtube_transcript env_down "https://youtu.be/dQw4w9WgXcQ" "en" empty_state)
      = returned F_transcript None
          (printed ("Error retrieving transcript: " +:+ exn_str e) s)) \/
  (exists vid s1 e s,
      get_youtube_transcript_video_id env_down "https://youtu.be/dQw4w9WgXcQ"
        (entered F_transcript "https://youtu.be/dQw4w9WgXcQ" empty_state)
      = (Ret vid, s1) /\
      get_youtube_transcript_text env_down "en" vid s1 = (Raise e, s) /\
      transcript_failure_line vid e
      = (if no_transcript_exn e
         then "No transcript available for video: " +:+ vid
         else "Error retrieving transcript: " +:+ exn_str e) /\
      snd (get_youtube_transcript env_down "https://youtu.be/dQw4w9WgXcQ" "en" empty_state)
      = returned F_transcript None (printed (transcript_failure_line vid e) s)).
Proof.
  apply (no_transcript_message env_down "https://youtu.be/dQw4w9WgXcQ" "en" empty_state).
  reflexivity.
Defined.

(** X11 on [talk.mp3] with every library call succeeding. *)
Lemma local_run_removes_nothing_witness :
  exists st',
    main env_ok (file_args "talk.mp3") (state_with "talk.mp3") = (Ret tt, st') /\
    files (state_with "talk.mp3") ⊆ files st'.
Proof.
  apply (local_run_removes_nothing env_ok (file_args "talk.mp3") (state_with "talk.mp3")).
  apply (bool_decide_unpack _). vm_compute. exact I.
Defined.

(** X13 on a short link and a time offset. *)
Lemma query_suffix_keeps_valid_witness :
  is_valid_youtube_url ("https://youtu.be/dQw4w9WgXcQ" +:+ "?t=42") = true.
Proof.
  apply (query_suffix_keeps_valid "https://youtu.be/dQw4w9WgXcQ" "?t=42"); reflexivity.
Defined.

(** X15 on a link to the mobile site. *)
Lemma other_youtube_hosts_are_rejected_witness :
  is_valid_youtube_url ("https://" +:+ "m.youtube.com" +:+ "/" +:+ "watch?v=dQw4w9WgXcQ")
  = false.
Proof.
  apply (other_youtube_hosts_are_rejected "https://" "m.youtube.com" "watch?v=dQw4w9WgXcQ");
    cbn [In]; tauto.
Defined.
